(** * Benchmark comparison and scoring in [generate-performance-charts.py]

    A shallow embedding of the computations that
    [scripts/generate-performance-charts.py] performs between loading two
    performance reports and handing numbers to matplotlib:

    - [load_performance_data]            (lines 23-30)
    - [create_benchmark_comparison_chart] (lines 32-63, the data preparation)
    - [calculate_performance_score]      (lines 231-245)
    - [create_summary_report]            (lines 303-345, the counters, the
                                           pie-chart sizes and the scores)

    Plotting calls and [print] are left out: they consume the computed
    values.  The one exception is [ax1.pie] (line 340), which refuses sizes
    that are all zero and thereby ends [create_summary_report].

    Conventions of the embedding.

    - A Python exception is a value: every operation that can raise returns
      in [res], and [x <- e ;; k] propagates the first exception, which is
      Python's evaluation order for the statements modelled here.
    - Numbers.  A Python [int] is an integer of any size ([PyInt]).  A
      [float] ([PyNum]) is idealised as an exact rational: no rounding, no
      [inf], no [nan].  Equalities between numbers are therefore stated with
      [Qeq] ([==]).  Where the script adds and divides the timings of a
      report (line 243) and where it calls [float] (lines 271-272), an [int]
      too large for a float makes Python raise [OverflowError]; this is
      modelled.  The two percentages of lines 58 and 326 are computed in
      exact arithmetic throughout.  Lines 326-330 are given a second time in
      binary64 ([change_pct_binary64], [classify_binary64]) so that the
      boundary scenario can also be evaluated with the rounding Python
      performs.
    - A benchmark entry is a JSON object read through the keys ['name'],
      ['ns_per_op'] and ['allocs_per_op'], each of which may be absent.  When
      present, ['name'] is a JSON string; the two measurements are arbitrary
      JSON scalars, so that a string or [null] in place of a number is
      representable. *)

From Stdlib Require Import QArith Qabs ZArith Lia Lqa Floats.
From stdpp Require Import base option list gmap strings.

(** ** Exceptions and the error monad *)

Inductive exn : Type :=
| KeyError
| TypeError
| ZeroDivisionError
| OverflowError
| ValueError
| AttributeError
| OSError
| JSONDecodeError.

Inductive res (A : Type) : Type :=
| Ok (a : A)
| Raise (e : exn).

Arguments Ok {A} a.
Arguments Raise {A} e.

Definition bind {A B} (m : res A) (k : A -> res B) : res B :=
  match m with
  | Ok a => k a
  | Raise e => Raise e
  end.

Notation "x <- m ;; k" := (bind m (fun x => k))
  (at level 100, m at next level, right associativity).

Definition is_ok {A} (r : res A) : bool :=
  match r with Ok _ => true | Raise _ => false end.

(** ** Python values that occur as measurements *)

(** A JSON integer literal loads as a Python [int], of any size
    ([PyInt]); any other JSON number loads as a [float] ([PyNum]). *)
Inductive pyval : Type :=
| PyNone
| PyBool (b : bool)
| PyInt (z : Z)
| PyNum (q : Q)
| PyStr (s : string).

(** One element of the ['benchmarks'] array. *)
Record bench : Type := Bench {
  name : option string;
  ns_per_op : option pyval;
  allocs_per_op : option pyval
}.

(** A loaded report; only the key the modelled functions read is kept. *)
Record data : Type := Data {
  benchmarks : option (list bench)
}.

(** ** Primitive operations *)

Definition Qltb (x y : Q) : bool := negb (Qle_bool y x).

(** Numeric view of a value in an arithmetic or ordering context:
    [bool] is a subclass of [int]; [None] and [str] raise [TypeError]
    against a number. *)
Definition as_number (v : pyval) : res Q :=
  match v with
  | PyNum q => Ok q
  | PyInt z => Ok (inject_Z z)
  | PyBool b => Ok (if b then 1%Q else 0%Q)
  | PyNone | PyStr _ => Raise TypeError
  end.

(** [v > k] for a numeric literal [k]. *)
Definition py_gt (v : pyval) (k : Q) : res bool :=
  x <- as_number v ;; Ok (Qltb k x).

(** [v - w] *)
Definition py_sub (v w : pyval) : res Q :=
  x <- as_number v ;; y <- as_number w ;; Ok (x - y)%Q.

(** [x / w], true division. *)
Definition py_truediv (x : Q) (w : pyval) : res Q :=
  y <- as_number w ;;
  if Qeq_bool y 0 then Raise ZeroDivisionError else Ok (x / y)%Q.

(** [max(a, x)] and [min(a, x)] with two arguments: the first argument is
    returned unless the second is strictly better. *)
Definition py_max (a x : Q) : Q := if Qltb a x then x else a.
Definition py_min (a x : Q) : Q := if Qltb x a then x else a.

(** [b['name']] *)
Definition getitem_name (b : bench) : res string :=
  match name b with
  | Some n => Ok n
  | None => Raise KeyError
  end.

(** [b.get('ns_per_op', 0)] *)
Definition get_ns_per_op (b : bench) : pyval :=
  default (PyNum 0) (ns_per_op b).

(** [d.get('benchmarks', [])] *)
Definition get_benchmarks (d : data) : list bench :=
  default (@nil bench) (benchmarks d).

(** [{b['name']: b for b in baseline_benchmarks}], entries inserted from
    left to right into [acc]. *)
Fixpoint build_lookup (bs : list bench) (acc : gmap string bench)
  : res (gmap string bench) :=
  match bs with
  | [] => Ok acc
  | b :: rest => n <- getitem_name b ;; build_lookup rest (<[n := b]> acc)
  end.

Definition baseline_lookup (baseline_benchmarks : list bench)
  : res (gmap string bench) :=
  build_lookup baseline_benchmarks ∅.

(** [baseline_ns > 0 and current_ns > 0]: [and] does not evaluate its
    right operand when the left one is false. *)
Definition both_positive (baseline_ns current_ns : pyval) : res bool :=
  bp <- py_gt baseline_ns 0 ;;
  if bp then py_gt current_ns 0 else Ok false.

(** [str.replace(old, new)] for a non-empty [old]: occurrences are replaced
    from left to right without overlap.  [skip] counts the characters of a
    match that are still to be dropped. *)
Fixpoint replace_from (old new : string) (skip : nat) (s : string) : string :=
  match s with
  | EmptyString => EmptyString
  | String c rest =>
      match skip with
      | S k => replace_from old new k rest
      | O =>
          if String.prefix old s
          then String.append new
                 (replace_from old new (pred (String.length old)) rest)
          else String c (replace_from old new O rest)
      end
  end.

Definition str_replace (s old new : string) : string :=
  replace_from old new O s.

(** ** [load_performance_data] (lines 23-30)

    [open] and [json.load] belong to the Python runtime.  Their joint
    outcome for a file name is taken as given: either an exception (the
    file is missing or unreadable, or its text is not JSON), or the parsed
    document.  The JSON literal [null] parses to Python's [None]; a JSON
    object parses to a dict. *)

Inductive loaded : Type :=
| LoadedNone
| LoadedDict (d : data).

Section Load.

Variable open_and_json_load : string -> res loaded.

(** [try: ... return json.load(f)  except Exception: ... return None] *)
Definition load_performance_data (filename : string) : loaded :=
  match open_and_json_load filename with
  | Ok document => document
  | Raise _ => LoadedNone
  end.

End Load.

(** ** [calculate_performance_score] (lines 231-245) *)

(** [[b.get('ns_per_op', 0) for b in benchmarks
      if b.get('ns_per_op', 0) > 0]] *)
Fixpoint ns_values (benchmarks : list bench) : res (list pyval) :=
  match benchmarks with
  | [] => Ok []
  | b :: rest =>
      keep <- py_gt (get_ns_per_op b) 0 ;;
      vs <- ns_values rest ;;
      Ok (if keep then get_ns_per_op b :: vs else vs)
  end.

(** [sum] and [/] at line 243 tell an [int] from a [float].  Python raises
    [OverflowError] when it converts an [int] operand to [float], or divides
    one [int] by another, and the result would round beyond the largest
    binary64 number, that is, when its magnitude reaches 2^1024 - 2^970. *)
Definition float_limit : Q :=
  Eval vm_compute in inject_Z (2 ^ 1024 - 2 ^ 970)%Z.

Arguments float_limit : simpl never.

Definition fits_float (x : Q) : bool := Qltb (Qabs x) float_limit.

(** A number with the type Python gives it. *)
Inductive number : Type :=
| IntNum (z : Z)
| FloatNum (q : Q).

Definition number_value (x : number) : Q :=
  match x with
  | IntNum z => inject_Z z
  | FloatNum q => q
  end.

Definition typed_number (v : pyval) : res number :=
  match v with
  | PyInt z => Ok (IntNum z)
  | PyBool b => Ok (IntNum (if b then 1 else 0))
  | PyNum q => Ok (FloatNum q)
  | PyNone | PyStr _ => Raise TypeError
  end.

(** The conversion of an [int] operand that meets a [float] one. *)
Definition int_to_float (z : Z) : res Q :=
  if fits_float (inject_Z z) then Ok (inject_Z z) else Raise OverflowError.

(** [acc + v] *)
Definition py_add (acc : number) (v : pyval) : res number :=
  x <- typed_number v ;;
  match acc, x with
  | IntNum m, IntNum n => Ok (IntNum (m + n))
  | IntNum m, FloatNum q => p <- int_to_float m ;; Ok (FloatNum (p + q))
  | FloatNum p, IntNum n => q <- int_to_float n ;; Ok (FloatNum (p + q))
  | FloatNum p, FloatNum q => Ok (FloatNum (p + q))
  end.

(** [sum(values)], starting from [acc] (the integer 0 at line 243). *)
Fixpoint py_sum (acc : number) (values : list pyval) : res number :=
  match values with
  | [] => Ok acc
  | v :: rest => acc' <- py_add acc v ;; py_sum acc' rest
  end.

(** [total / len(values)]: the divisor is an [int]. *)
Definition py_truediv_len {A} (total : number) (values : list A) : res Q :=
  let n := inject_Z (Z.of_nat (length values)) in
  if Qeq_bool n 0 then Raise ZeroDivisionError
  else
    match total with
    | IntNum z =>
        if fits_float (inject_Z z / n) then Ok (inject_Z z / n)%Q
        else Raise OverflowError
    | FloatNum q => Ok (q / n)%Q
    end.

Definition calculate_performance_score (d : data) : res Q :=
  match get_benchmarks d with
  | [] => Ok 0%Q
  | benchmarks =>
      values <- ns_values benchmarks ;;
      match values with
      | [] => Ok 0%Q
      | _ =>
          total <- py_sum (IntNum 0) values ;;
          avg_ns <- py_truediv_len total values ;;
          let score := py_max 0 (100 - avg_ns / 1000)%Q in
          Ok (py_min 100 score)
      end
  end.

(** ** [create_benchmark_comparison_chart] (lines 32-63)

    The four lists [benchmark_names], [current_values], [baseline_values]
    and [improvements] are only ever appended to together, so they are kept
    as one list of rows. *)

Record row : Type := Row {
  benchmark_name : string;
  current_value : pyval;
  baseline_value : pyval;
  improvement : Q
}.

(** [((baseline_ns - current_ns) / baseline_ns) * 100] (line 58) *)
Definition improvement_pct (current_ns baseline_ns : pyval) : res Q :=
  diff <- py_sub baseline_ns current_ns ;;
  ratio <- py_truediv diff baseline_ns ;;
  Ok (ratio * 100)%Q.

(** Lines 53-63 for a current entry named [nm] and the baseline entry found
    under that name: the row appended, if any. *)
Definition chart_pair (nm : string) (current_bench baseline_bench : bench)
  : res (option row) :=
  let current_ns := get_ns_per_op current_bench in
  let baseline_ns := get_ns_per_op baseline_bench in
  positive <- both_positive baseline_ns current_ns ;;
  if positive then
    imp <- improvement_pct current_ns baseline_ns ;;
    Ok (Some {| benchmark_name := str_replace nm "Benchmark" "";
                current_value := current_ns;
                baseline_value := baseline_ns;
                improvement := imp |})
  else Ok None.

(** The body of the loop at lines 48-63 for one [current_bench]. *)
Definition chart_body (lookup : gmap string bench) (current_bench : bench)
  : res (option row) :=
  nm <- getitem_name current_bench ;;
  match lookup !! nm with
  | Some baseline_bench => chart_pair nm current_bench baseline_bench
  | None => Ok None
  end.

Fixpoint chart_loop (lookup : gmap string bench) (current_benchmarks : list bench)
  : res (list row) :=
  match current_benchmarks with
  | [] => Ok []
  | current_bench :: rest =>
      r <- chart_body lookup current_bench ;;
      rows <- chart_loop lookup rest ;;
      Ok (match r with Some x => x :: rows | None => rows end)
  end.

Definition create_benchmark_comparison_chart (current_data baseline_data : data)
  : res (list row) :=
  let current_benchmarks := get_benchmarks current_data in
  let baseline_benchmarks := get_benchmarks baseline_data in
  lookup <- baseline_lookup baseline_benchmarks ;;
  chart_loop lookup current_benchmarks.

(** ** [create_summary_report] (lines 303-345) *)

(** Which arm of [if change > 5: ... elif change < -5: ...] is taken. *)
Inductive classification : Type :=
| Regression
| Improvement
| Unchanged.

Definition classify (change : Q) : classification :=
  if Qltb 5 change then Regression
  else if Qltb change (-5) then Improvement
  else Unchanged.

(** [((current_ns - baseline_ns) / baseline_ns) * 100] (line 326) *)
Definition change_pct (current_ns baseline_ns : pyval) : res Q :=
  diff <- py_sub current_ns baseline_ns ;;
  ratio <- py_truediv diff baseline_ns ;;
  Ok (ratio * 100)%Q.

(** Lines 326-330 once more, on IEEE binary64 numbers with their rounding:
    what Python computes when the operands are floats, or integers that a
    float holds exactly. *)
Definition change_pct_binary64 (current_ns baseline_ns : float) : float :=
  ((current_ns - baseline_ns) / baseline_ns * 100)%float.

Definition classify_binary64 (change : float) : classification :=
  if PrimFloat.ltb 5 change then Regression
  else if PrimFloat.ltb change (-5) then Improvement
  else Unchanged.

(** Lines 322-330 for a current entry and the baseline entry found under
    its name: [None] when the pair is skipped by the guard of line 325. *)
Definition compare_pair (current_bench baseline_bench : bench)
  : res (option (Q * classification)) :=
  let current_ns := get_ns_per_op current_bench in
  let baseline_ns := get_ns_per_op baseline_bench in
  positive <- both_positive baseline_ns current_ns ;;
  if positive then
    change <- change_pct current_ns baseline_ns ;;
    Ok (Some (change, classify change))
  else Ok None.

(** The two counters [(regressions, improvements)] after one arm. *)
Definition count (st : Z * Z) (c : option (Q * classification)) : Z * Z :=
  match c with
  | Some (_, Regression) => (fst st + 1, snd st)%Z
  | Some (_, Improvement) => (fst st, snd st + 1)%Z
  | Some (_, Unchanged) | None => st
  end.

Definition summary_body (lookup : gmap string bench) (st : Z * Z)
    (current_bench : bench) : res (Z * Z) :=
  nm <- getitem_name current_bench ;;
  match lookup !! nm with
  | Some baseline_bench =>
      c <- compare_pair current_bench baseline_bench ;;
      Ok (count st c)
  | None => Ok st
  end.

Fixpoint summary_loop (lookup : gmap string bench) (st : Z * Z)
    (current_benchmarks : list bench) : res (Z * Z) :=
  match current_benchmarks with
  | [] => Ok st
  | current_bench :: rest =>
      st' <- summary_body lookup st current_bench ;;
      summary_loop lookup st' rest
  end.

Record summary : Type := Summary {
  total_benchmarks : Z;
  regressions : Z;
  improvements : Z;
  sizes : list Z;
  current_score : Q;
  baseline_score : Q;
  score_change : Q
}.

(** [ax1.pie(sizes, ...)] (line 340).  matplotlib divides the sizes by
    their sum and raises [ValueError] when all of them are 0; this is the
    one plotting call whose refusal is kept, because it ends the function
    before the scores are computed. *)
Definition ax1_pie (sizes : list Z) : res unit :=
  if forallb (Z.eqb 0) sizes then Raise ValueError else Ok tt.

Definition create_summary_report (current_data baseline_data : data)
  : res summary :=
  let current_benchmarks := get_benchmarks current_data in
  let baseline_benchmarks := get_benchmarks baseline_data in
  let total := Z.of_nat (length current_benchmarks) in
  lookup <- baseline_lookup baseline_benchmarks ;;
  st <- summary_loop lookup (0, 0)%Z current_benchmarks ;;
  let r := fst st in
  let i := snd st in
  let pie_sizes := [r; i; (total - r - i)%Z] in
  _ <- ax1_pie pie_sizes ;;
  cs <- calculate_performance_score current_data ;;
  bs <- calculate_performance_score baseline_data ;;
  Ok {| total_benchmarks := total;
        regressions := r;
        improvements := i;
        sizes := pie_sizes;
        current_score := cs;
        baseline_score := bs;
        score_change := (cs - bs)%Q |}.

(** ** Sample entries *)

Definition measured (n : string) (ns : Q) : bench :=
  {| name := Some n; ns_per_op := Some (PyNum ns); allocs_per_op := None |}.

(** An entry whose timing is an integer literal. *)
Definition counted (n : string) (ns : Z) : bench :=
  {| name := Some n; ns_per_op := Some (PyInt ns); allocs_per_op := None |}.

Definition report (bs : list bench) : data := {| benchmarks := Some bs |}.

(** An entry with a name and no ['ns_per_op'] key. *)
Definition untimed (n : string) : bench :=
  {| name := Some n; ns_per_op := None; allocs_per_op := None |}.

(** A file system in which every file holds the JSON document [null]. *)
Definition null_documents : string -> res loaded := fun _ => Ok LoadedNone.

(** A file system with one report, ["current.json"]; any other file is
    missing. *)
Definition one_report : string -> res loaded :=
  fun filename =>
    if String.eqb filename "current.json"
    then Ok (LoadedDict (report [measured "A" 100; measured "B" 200]))
    else Raise OSError.

#[export] Instance classification_eq_dec : EqDecision classification.
Proof. solve_decision. Defined.

#[export] Instance Qlt_decision (x y : Q) : Decision (x < y)%Q :=
  match Qlt_le_dec x y with
  | left H => left H
  | right H => right (Qle_not_lt _ _ H)
  end.

(** ** The engine as the specification words it

    Definitions of this module follow the wording of the specification
    (its sections 4.2 and 4.3), not the script; the theorems below compare
    the two.  A measurement is a [bench] whose timing is read as a number
    when it is one. *)

Module Spec.

Record ComparisonResult : Type := Result {
  r_name : string;
  r_current_ns : Q;
  r_baseline_ns : Q;
  r_change_pct : Q;
  r_classification : classification
}.

(** The timing of a measurement; an absent [ns_per_op] reads as 0. *)
Definition ns (m : bench) : option Q :=
  match as_number (get_ns_per_op m) with
  | Ok q => Some q
  | Raise _ => None
  end.

(** Step 1: the baseline measurement of a given name, the last one
    winning when a name occurs more than once. *)
Definition lookup (baseline : list bench) (n : string) : option bench :=
  List.find (fun b => bool_decide (name b = Some n)) (rev baseline).

(** Step 5, for a threshold [t]. *)
Definition classify (t change : Q) : classification :=
  if decide (t < change)%Q then Regression
  else if decide (change < - t)%Q then Improvement
  else Unchanged.

(** Steps 2 to 6 for one current measurement. *)
Definition compare_one (t : Q) (baseline : list bench) (cur : bench)
  : option ComparisonResult :=
  n ← name cur;
  b ← lookup baseline n;
  c_ns ← ns cur;
  b_ns ← ns b;
  if decide (0 < c_ns)%Q then
    if decide (0 < b_ns)%Q then
      let change := ((c_ns - b_ns) / b_ns * 100)%Q in
      Some {| r_name := n;
              r_current_ns := c_ns;
              r_baseline_ns := b_ns;
              r_change_pct := change;
              r_classification := classify t change |}
    else None
  else None.

Definition compare (t : Q) (current baseline : list bench)
  : list ComparisonResult :=
  omap (compare_one t baseline) current.

(** Section 4.3: how many results carry a given classification. *)
Definition tally (c : classification) (results : list ComparisonResult) : nat :=
  length (filter (fun r => r_classification r = c) results).

(** Score: the measurements with a positive timing, their mean, and the
    clamped linear scale.  The timing is read off the entry itself. *)
Definition timing (m : bench) : option Q :=
  match ns_per_op m with
  | None => Some 0%Q
  | Some (PyInt z) => Some (inject_Z z)
  | Some (PyNum q) => Some q
  | Some (PyBool b) => Some (if b then 1%Q else 0%Q)
  | Some PyNone | Some (PyStr _) => None
  end.

Definition positive_ns (run : list bench) : list Q :=
  filter (fun q => (0 < q)%Q) (omap timing run).

Definition total (l : list Q) : Q := foldr Qplus 0%Q l.

Definition mean (l : list Q) : Q :=
  (total l / inject_Z (Z.of_nat (length l)))%Q.

Definition clamp (lo hi x : Q) : Q :=
  if decide (x < lo)%Q then lo
  else if decide (hi < x)%Q then hi
  else x.

Definition score (run : list bench) : Q :=
  match positive_ns run with
  | [] => 0%Q
  | l => clamp 0 100 (100 - mean l / 1000)%Q
  end.

End Spec.

(** ** Well-formed entries *)

Definition named (b : bench) : Prop := is_Some (name b).

Definition numeric (b : bench) : Prop :=
  exists q, as_number (get_ns_per_op b) = Ok q.

(** ** Relating the script's values to the specification's results *)

(** The two counters as the specification's result for one measurement
    moves them. *)
Definition count_result (st : Z * Z) (o : option Spec.ComparisonResult) : Z * Z :=
  count st ((fun r => (Spec.r_change_pct r, Spec.r_classification r)) <$> o).

(** A chart row and a comparison result describe the same pair; the chart
    stores the percentage with the opposite sign. *)
Definition row_matches (x : row) (r : Spec.ComparisonResult) : Prop :=
  benchmark_name x = str_replace (Spec.r_name r) "Benchmark" "" /\
  as_number (current_value x) = Ok (Spec.r_current_ns r) /\
  as_number (baseline_value x) = Ok (Spec.r_baseline_ns r) /\
  (improvement x == - Spec.r_change_pct r)%Q.

(** A chart row was appended for this entry of the current report. *)
Definition row_of (x : row) (current_bench : bench) : Prop :=
  exists n, name current_bench = Some n /\
            benchmark_name x = str_replace n "Benchmark" "" /\
            current_value x = get_ns_per_op current_bench.

(** * The rest of the script

    The functions below are the remaining ones of
    [generate-performance-charts.py]: the bar colours of the comparison
    chart, [create_resource_usage_chart], [create_performance_trend_chart]
    and [main].  They read more keys of a report than the benchmark list,
    so a report is given with all the keys the script reads; [as_data] is
    the view the functions above take of it. *)

(** One element of the ['performance_metrics'] array. *)
Record metric_entry : Type := MetricEntry {
  metric : option string;
  value : option pyval
}.

(** A loaded report as a dict: the three keys the script reads, each of
    which may be absent, and the names of any other keys.
    ['performance_stats'] maps a metric name to a dict from statistic name
    to number. *)
Record report_dict : Type := ReportDict {
  as_data : data;
  performance_stats : option (gmap string (gmap string pyval));
  performance_metrics : option (list metric_entry);
  other_keys : list string
}.

(** ** Bar colours of the comparison chart (line 105) *)

(** [['green' if imp > 0 else 'red' for imp in improvements]] *)
Definition bar_color (x : row) : string :=
  if Qltb 0 (improvement x) then "green" else "red".

Definition bar_colors (rows : list row) : list string := map bar_color rows.

(** ** [create_resource_usage_chart] (lines 247-301) *)

(** How a call of [float(v)] ends. *)
Inductive float_result : Type :=
| FloatOk (q : Q)
| FloatValueError
| FloatTypeError
| FloatOverflowError.

(** The three lists the loop appends to. *)
Record resource_lists : Type := ResourceLists {
  current_values : list Q;
  baseline_values : list Q;
  metric_names : list string
}.

(** [m['metric']] and [m['value']] *)
Definition getitem_metric (m : metric_entry) : res string :=
  match metric m with
  | Some n => Ok n
  | None => Raise KeyError
  end.

Definition getitem_value (m : metric_entry) : res pyval :=
  match value m with
  | Some v => Ok v
  | None => Raise KeyError
  end.

(** [d.get('performance_metrics', [])] *)
Definition get_performance_metrics (d : report_dict) : list metric_entry :=
  default (@nil metric_entry) (performance_metrics d).

(** [{m['metric']: m for m in metrics}], entries inserted from left to
    right into [acc]. *)
Fixpoint build_metric_lookup (ms : list metric_entry)
    (acc : gmap string metric_entry) : res (gmap string metric_entry) :=
  match ms with
  | [] => Ok acc
  | m :: rest =>
      n <- getitem_metric m ;; build_metric_lookup rest (<[n := m]> acc)
  end.

Definition resource_metrics : list string := ["CPU"; "Memory"; "Network"].

Section Resource.

(** Python's reading of a string as a float literal; [None] stands for the
    [ValueError] that [float] raises on any other string. *)
Variable float_of_str : string -> option Q.

(** [float(v)]: numbers and booleans convert, except that an [int] too
    large for a float raises [OverflowError]; a string is parsed; [None]
    raises [TypeError]. *)
Definition py_float (v : pyval) : float_result :=
  match v with
  | PyNum q => FloatOk q
  | PyInt z =>
      if fits_float (inject_Z z) then FloatOk (inject_Z z) else FloatOverflowError
  | PyBool b => FloatOk (if b then 1%Q else 0%Q)
  | PyStr s =>
      match float_of_str s with
      | Some q => FloatOk q
      | None => FloatValueError
      end
  | PyNone => FloatTypeError
  end.

(** The [try] block of lines 270-278 for two entries found under the same
    metric: the pair of values to append, or nothing when [ValueError] was
    caught.  The baseline entry is not touched before the current value has
    been converted. *)
Definition resource_pair (current_entry baseline_entry : metric_entry)
  : res (option (Q * Q)) :=
  cv <- getitem_value current_entry ;;
  match py_float cv with
  | FloatTypeError => Raise TypeError
  | FloatOverflowError => Raise OverflowError
  | FloatValueError => Ok None
  | FloatOk current_val =>
      bv <- getitem_value baseline_entry ;;
      match py_float bv with
      | FloatTypeError => Raise TypeError
      | FloatOverflowError => Raise OverflowError
      | FloatValueError => Ok None
      | FloatOk baseline_val => Ok (Some (current_val, baseline_val))
      end
  end.

(** One iteration of the loop of lines 268-278. *)
Definition resource_body (current_lookup baseline_lookup : gmap string metric_entry)
    (acc : resource_lists) (m : string) : res resource_lists :=
  match current_lookup !! m, baseline_lookup !! m with
  | Some current_entry, Some baseline_entry =>
      p <- resource_pair current_entry baseline_entry ;;
      match p with
      | Some (current_val, baseline_val) =>
          Ok {| current_values := current_values acc ++ [current_val];
                baseline_values := baseline_values acc ++ [baseline_val];
                metric_names := metric_names acc ++ [m] |}
      | None => Ok acc
      end
  | _, _ => Ok acc
  end.

Fixpoint resource_loop (current_lookup baseline_lookup : gmap string metric_entry)
    (acc : resource_lists) (ms : list string) : res resource_lists :=
  match ms with
  | [] => Ok acc
  | m :: rest =>
      acc' <- resource_body current_lookup baseline_lookup acc m ;;
      resource_loop current_lookup baseline_lookup acc' rest
  end.

Definition create_resource_usage_chart (current_data baseline_data : report_dict)
  : res resource_lists :=
  let current_metrics := get_performance_metrics current_data in
  let baseline_metrics := get_performance_metrics baseline_data in
  current_lookup <- build_metric_lookup current_metrics ∅ ;;
  baseline_lookup <- build_metric_lookup baseline_metrics ∅ ;;
  resource_loop current_lookup baseline_lookup
    {| current_values := []; baseline_values := []; metric_names := [] |}
    resource_metrics.

End Resource.

(** ** [create_performance_trend_chart] (lines 132-229) *)

(** [str.title()] on ASCII text: the first letter of every run of letters
    is made upper case, the others lower case. *)
Definition is_upper (c : Ascii.ascii) : bool :=
  (65 <=? Ascii.nat_of_ascii c) && (Ascii.nat_of_ascii c <=? 90).

Definition is_lower (c : Ascii.ascii) : bool :=
  (97 <=? Ascii.nat_of_ascii c) && (Ascii.nat_of_ascii c <=? 122).

Definition to_upper (c : Ascii.ascii) : Ascii.ascii :=
  if is_lower c then Ascii.ascii_of_nat (Ascii.nat_of_ascii c - 32) else c.

Definition to_lower (c : Ascii.ascii) : Ascii.ascii :=
  if is_upper c then Ascii.ascii_of_nat (Ascii.nat_of_ascii c + 32) else c.

Fixpoint title_from (in_word : bool) (s : string) : string :=
  match s with
  | EmptyString => EmptyString
  | String c rest =>
      if is_upper c || is_lower c
      then String (if in_word then to_lower c else to_upper c)
                  (title_from true rest)
      else String c (title_from false rest)
  end.

Definition py_title (s : string) : string := title_from false s.

Definition metrics : list string := ["ns_per_op"; "allocs_per_op"].

Definition stats_types : list string := ["mean"; "median"; "min"; "max"].

(** What one panel of the statistics comparison shows. *)
Record stat_panel : Type := StatPanel {
  categories : list string;
  panel_current : list pyval;
  panel_baseline : list pyval
}.

(** The loop of lines 158-162 over the statistic names [sts]. *)
Fixpoint panel_loop (current_metric_data baseline_metric_data : gmap string pyval)
    (acc : stat_panel) (sts : list string) : stat_panel :=
  match sts with
  | [] => acc
  | stat_type :: rest =>
      match current_metric_data !! stat_type, baseline_metric_data !! stat_type with
      | Some cv, Some bv =>
          panel_loop current_metric_data baseline_metric_data
            {| categories := categories acc ++ [py_title stat_type];
               panel_current := panel_current acc ++ [cv];
               panel_baseline := panel_baseline acc ++ [bv] |}
            rest
      | _, _ => panel_loop current_metric_data baseline_metric_data acc rest
      end
  end.

(** Lines 147-178 for one metric: the panel drawn on its axes, if any.  An
    absent metric reads as the empty dict, and an empty dict on either side
    skips the metric. *)
Definition trend_panel (current_stats baseline_stats : gmap string (gmap string pyval))
    (metric_name : string) : option stat_panel :=
  let current_metric_data := default ∅ (current_stats !! metric_name) in
  let baseline_metric_data := default ∅ (baseline_stats !! metric_name) in
  if (size current_metric_data =? 0) || (size baseline_metric_data =? 0)
  then None
  else
    let p := panel_loop current_metric_data baseline_metric_data
               {| categories := []; panel_current := []; panel_baseline := [] |}
               stats_types in
    match categories p with
    | [] => None
    | _ => Some p
    end.

(** [b.get('allocs_per_op', 0)] *)
Definition get_allocs_per_op (b : bench) : pyval :=
  default (PyNum 0) (allocs_per_op b).

(** [[b.get('allocs_per_op', 0) for b in benchmarks
      if b.get('allocs_per_op', 0) > 0]] *)
Fixpoint positive_allocs (benchmarks : list bench) : res (list pyval) :=
  match benchmarks with
  | [] => Ok []
  | b :: rest =>
      keep <- py_gt (get_allocs_per_op b) 0 ;;
      vs <- positive_allocs rest ;;
      Ok (if keep then get_allocs_per_op b :: vs else vs)
  end.

(** [d.get('performance_stats', {})] *)
Definition get_performance_stats (d : report_dict)
  : gmap string (gmap string pyval) :=
  default ∅ (performance_stats d).

(** What the trend chart draws: one optional panel per metric of
    [metrics], the two allocation samples of the histogram when it is
    drawn, and the two scores [baseline_score, current_score] with the
    colour of the current one. *)
Record trend_chart : Type := TrendChart {
  panels : list (option stat_panel);
  histogram : option (list pyval * list pyval);
  scores : Q * Q;
  current_color : string
}.

(** [a >= b] on numbers *)
Definition Qgeb (a b : Q) : bool := Qle_bool b a.

Definition create_performance_trend_chart (current_data baseline_data : report_dict)
  : res trend_chart :=
  let current_stats := get_performance_stats current_data in
  let baseline_stats := get_performance_stats baseline_data in
  let drawn := map (trend_panel current_stats baseline_stats) metrics in
  let current_benchmarks := get_benchmarks (as_data current_data) in
  let baseline_benchmarks := get_benchmarks (as_data baseline_data) in
  current_allocs <- positive_allocs current_benchmarks ;;
  baseline_allocs <- positive_allocs baseline_benchmarks ;;
  let hist :=
    match current_allocs, baseline_allocs with
    | _ :: _, _ :: _ => Some (baseline_allocs, current_allocs)
    | _, _ => None
    end in
  current_score <- calculate_performance_score (as_data current_data) ;;
  baseline_score <- calculate_performance_score (as_data baseline_data) ;;
  Ok {| panels := drawn;
        histogram := hist;
        scores := (baseline_score, current_score);
        current_color :=
          if Qgeb current_score baseline_score then "lightgreen" else "lightcoral" |}.

(** ** [main] (lines 391-426)

    The command line gives the two file names.  Calls into [argparse], [os]
    and matplotlib are taken to return; what is modelled is which reports
    are loaded, when the script exits, and the order in which the four
    functions compute. *)

(** What [json.load] hands back: any JSON document.  A report is an
    object, kept with the whole dict; of an array only the length matters
    here, and of a number only whether it is zero. *)
Inductive loaded_report : Type :=
| ReportNone
| ReportLoaded (r : report_dict)
| ReportArray (elements : nat)
| ReportString (s : string)
| ReportNumber (q : Q)
| ReportBool (b : bool).

(** [not v] for a loaded value: [None], the dict without keys, the empty
    array, the empty string, zero and [False] are false. *)
Definition dict_is_empty (r : report_dict) : bool :=
  match benchmarks (as_data r), performance_stats r, performance_metrics r, other_keys r with
  | None, None, None, [] => true
  | _, _, _, _ => false
  end.

Definition py_not (v : loaded_report) : bool :=
  match v with
  | ReportNone => true
  | ReportLoaded r => dict_is_empty r
  | ReportArray elements => Nat.eqb elements 0
  | ReportString s => String.eqb s ""
  | ReportNumber q => Qeq_bool q 0
  | ReportBool b => negb b
  end.

(** Everything the four functions computed. *)
Record generated : Type := Generated {
  comparison : list row;
  trend : trend_chart;
  resource_usage : resource_lists;
  summary_report : summary
}.

(** How a run of the script ends: [sys.exit(code)], an exception that
    nothing catches, or the end of [main]. *)
Inductive outcome : Type :=
| Exit (code : Z)
| Uncaught (e : exn)
| Finished (charts : generated).

Definition run (r : res generated) : outcome :=
  match r with
  | Ok charts => Finished charts
  | Raise e => Uncaught e
  end.

Section Main.

Variable float_of_str : string -> option Q.

(** The joint outcome of [open] and [json.load] for a file name, as for
    [load_performance_data], with the whole dict. *)
Variable open_and_json_load_report : string -> res loaded_report.

(** [load_performance_data] (lines 23-30) on whole reports. *)
Definition load_report (filename : string) : loaded_report :=
  match open_and_json_load_report filename with
  | Ok document => document
  | Raise _ => ReportNone
  end.

(** Lines 415-418. *)
Definition generate_charts (current_data baseline_data : report_dict)
  : res generated :=
  rows <- create_benchmark_comparison_chart (as_data current_data) (as_data baseline_data) ;;
  tr <- create_performance_trend_chart current_data baseline_data ;;
  ru <- create_resource_usage_chart float_of_str current_data baseline_data ;;
  sm <- create_summary_report (as_data current_data) (as_data baseline_data) ;;
  Ok {| comparison := rows; trend := tr; resource_usage := ru; summary_report := sm |}.

(** Lines 404-418.  Past the test of line 407 the two values are read
    with [.get] (lines 411-412), which only a dict has. *)
Definition main (current baseline : string) : outcome :=
  let current_data := load_report current in
  let baseline_data := load_report baseline in
  if py_not current_data || py_not baseline_data then Exit 1
  else
    match current_data, baseline_data with
    | ReportLoaded c, ReportLoaded b => run (generate_charts c b)
    | _, _ => Uncaught AttributeError
    end.

End Main.

(** ** Sample reports *)

(** A report that has only a ['benchmarks'] key. *)
Definition benchmarks_only (bs : list bench) : report_dict :=
  {| as_data := report bs;
     performance_stats := None;
     performance_metrics := None;
     other_keys := [] |}.

(** A report that has only a ['performance_metrics'] key. *)
Definition metrics_only (ms : list metric_entry) : report_dict :=
  {| as_data := {| benchmarks := None |};
     performance_stats := None;
     performance_metrics := Some ms;
     other_keys := [] |}.

Definition reading (n : string) (v : pyval) : metric_entry :=
  {| metric := Some n; value := Some v |}.

(** The JSON object without keys. *)
Definition empty_object : report_dict :=
  {| as_data := {| benchmarks := None |};
     performance_stats := None;
     performance_metrics := None;
     other_keys := [] |}.

(** A float parser for examples: it knows two literals. *)
Definition sample_float (s : string) : option Q :=
  if String.eqb s "12.5" then Some (25 # 2)
  else if String.eqb s "80" then Some 80%Q
  else None.

(** ** Predicates of the further properties *)

(** A row of the comparison chart reads as a regression, or as an
    improvement, against the threshold of the summary. *)
Definition regressed (x : row) : Prop := (improvement x < -5)%Q.

Definition improved (x : row) : Prop := (5 < improvement x)%Q.

#[export] Instance regressed_dec (x : row) : Decision (regressed x).
Proof. unfold regressed. apply _. Defined.

#[export] Instance improved_dec (x : row) : Decision (improved x).
Proof. unfold improved. apply _. Defined.

(** The text [old] occurs somewhere in [s]. *)
Definition occurs (old s : string) : Prop :=
  exists pre post, s = String.append pre (String.append old post).

(** A benchmark entry whose two measurements are numbers or absent. *)
Definition measurements_numeric (b : bench) : Prop :=
  (exists q, as_number (get_ns_per_op b) = Ok q) /\
  (exists q, as_number (get_allocs_per_op b) = Ok q).

(** Two benchmark entries that agree on both measurements, whatever their
    names. *)
Definition same_measurements (b b' : bench) : Prop :=
  ns_per_op b = ns_per_op b' /\ allocs_per_op b = allocs_per_op b'.

(** A metric entry that has a ['metric'] key. *)
Definition keyed (m : metric_entry) : Prop := is_Some (metric m).

(** The exception with which a call of [float] ends, if any, that the
    [except ValueError] of line 277 does not catch. *)
Definition escapes (r : float_result) : option exn :=
  match r with
  | FloatTypeError => Some TypeError
  | FloatOverflowError => Some OverflowError
  | FloatOk _ | FloatValueError => None
  end.

(** The last entry of a list of metric entries that carries a given metric
    name. *)
Definition last_entry (ms : list metric_entry) (k : string) : option metric_entry :=
  List.find (fun m => bool_decide (metric m = Some k)) (rev ms).

(** The triple a metric contributes when an entry is found for it on both
    sides and both values convert. *)
Definition converted (float_of_str : string -> option Q)
    (current_lookup baseline_lookup : gmap string metric_entry) (m : string)
  : option (string * Q * Q) :=
  c ← current_lookup !! m;
  b ← baseline_lookup !! m;
  vc ← value c;
  vb ← value b;
  match py_float float_of_str vc, py_float float_of_str vb with
  | FloatOk x, FloatOk y => Some (m, x, y)
  | _, _ => None
  end.

(** Three lists as the columns of a list of triples. *)
Definition columns (triples : list (string * Q * Q)) : resource_lists :=
  {| current_values := map (fun t => snd (fst t)) triples;
     baseline_values := map snd triples;
     metric_names := map (fun t => fst (fst t)) triples |}.

(** A statistic both dicts of a metric provide. *)
Definition shared_stat (cm bm : gmap string pyval) (st : string) : Prop :=
  is_Some (cm !! st) /\ is_Some (bm !! st).

#[export] Instance shared_stat_dec (cm bm : gmap string pyval) (st : string)
  : Decision (shared_stat cm bm st).
Proof. unfold shared_stat. apply _. Defined.

(** The JSON documents that Python takes for false. *)
Inductive falsy : loaded_report -> Prop :=
| falsy_null : falsy ReportNone
| falsy_object r : dict_is_empty r = true -> falsy (ReportLoaded r)
| falsy_array : falsy (ReportArray 0)
| falsy_string : falsy (ReportString "")
| falsy_number q : (q == 0)%Q -> falsy (ReportNumber q)
| falsy_false : falsy (ReportBool false).

(** A file from which [main] gets no usable report: loading raised, or the
    document is one of the false ones. *)
Definition unusable (open_and_json_load_report : string -> res loaded_report)
    (filename : string) : Prop :=
  (exists e, open_and_json_load_report filename = Raise e) \/
  (exists v, open_and_json_load_report filename = Ok v /\ falsy v).

(** A document that is not a JSON object. *)
Definition not_an_object (v : loaded_report) : Prop :=
  match v with
  | ReportLoaded _ => False
  | _ => True
  end.

(** A file system with two reports; any other file is missing. *)
Definition two_reports : string -> res loaded_report :=
  fun filename =>
    if String.eqb filename "current.json"
    then Ok (ReportLoaded
               {| as_data := report [measured "A" 100; untimed "B"];
                  performance_stats := None;
                  performance_metrics := Some [reading "CPU" (PyStr "12.5")];
                  other_keys := [] |})
    else if String.eqb filename "baseline.json"
    then Ok (ReportLoaded
               {| as_data := report [measured "A" 200];
                  performance_stats := None;
                  performance_metrics := Some [reading "CPU" (PyStr "80")];
                  other_keys := [] |})
    else if String.eqb filename "empty.json"
    then Ok (ReportLoaded empty_object)
    else if String.eqb filename "array.json"
    then Ok (ReportArray 0)
    else if String.eqb filename "list.json"
    then Ok (ReportArray 3)
    else Raise OSError.

(** * Properties *)

(** ** Arithmetic and monad helpers *)

Lemma Qltb_lt (x y : Q) : Qltb x y = true <-> (x < y)%Q.
Proof.
  unfold Qltb. rewrite negb_true_iff, <- not_true_iff_false, Qle_bool_iff.
  split; [apply Qnot_le_lt | apply Qlt_not_le].
Qed.

Lemma Qltb_ge (x y : Q) : Qltb x y = false <-> (y <= x)%Q.
Proof.
  unfold Qltb. rewrite negb_false_iff. apply Qle_bool_iff.
Qed.

Lemma bind_Ok {A B} (m : res A) (k : A -> res B) (b : B) :
  bind m k = Ok b <-> exists a, m = Ok a /\ k a = Ok b.
Proof.
  destruct m as [a|e]; simpl; split.
  - eauto.
  - intros (a' & [= ->] & H). exact H.
  - discriminate.
  - intros (a' & [=] & _).
Qed.

Lemma bind_Raise {A B} (m : res A) (k : A -> res B) (e : exn) :
  bind m k = Raise e <-> m = Raise e \/ exists a, m = Ok a /\ k a = Raise e.
Proof.
  destruct m as [a|e']; simpl; split.
  - eauto.
  - intros [[=] | (a' & [= ->] & H)]. exact H.
  - intros [= ->]. by left.
  - intros [[= ->] | (a' & [=] & _)]. reflexivity.
Qed.

Lemma py_gt_Ok (v : pyval) (k : Q) (b : bool) :
  py_gt v k = Ok b <-> exists x, as_number v = Ok x /\ b = Qltb k x.
Proof.
  unfold py_gt. rewrite bind_Ok. split; intros (x & Hx & H); exists x; split; congruence.
Qed.

(** The guard of lines 56 and 325 on numeric operands. *)
Lemma both_positive_numeric (bv cv : pyval) (b c : Q) :
  as_number bv = Ok b -> as_number cv = Ok c ->
  both_positive bv cv = Ok (Qltb 0 b && Qltb 0 c).
Proof.
  intros Hb Hc. unfold both_positive, py_gt. rewrite Hb, Hc. simpl.
  by destruct (Qltb 0 b).
Qed.

(** When the guard holds both operands are numbers and both are positive. *)
Lemma both_positive_true (bv cv : pyval) :
  both_positive bv cv = Ok true ->
  exists b c, as_number bv = Ok b /\ as_number cv = Ok c /\ (0 < b)%Q /\ (0 < c)%Q.
Proof.
  unfold both_positive. rewrite bind_Ok. intros (bp & Hb & H).
  apply py_gt_Ok in Hb as (b & Hb & ->).
  destruct (Qltb 0 b) eqn:Eb; [|discriminate].
  apply py_gt_Ok in H as (c & Hc & Ec). symmetry in Ec.
  exists b, c. by rewrite <- !Qltb_lt.
Qed.

Lemma change_pct_numeric (cv bv : pyval) (c b : Q) :
  as_number cv = Ok c -> as_number bv = Ok b -> (0 < b)%Q ->
  change_pct cv bv = Ok ((c - b) / b * 100)%Q.
Proof.
  intros Hc Hb Hpos. unfold change_pct, py_sub, py_truediv.
  rewrite Hc, Hb. simpl.
  destruct (Qeq_bool b 0) eqn:E; [|done].
  apply Qeq_bool_eq in E. rewrite E in Hpos. by apply Qlt_irrefl in Hpos.
Qed.

Lemma improvement_pct_numeric (cv bv : pyval) (c b : Q) :
  as_number cv = Ok c -> as_number bv = Ok b -> (0 < b)%Q ->
  improvement_pct cv bv = Ok ((b - c) / b * 100)%Q.
Proof.
  intros Hc Hb Hpos. unfold improvement_pct, py_sub, py_truediv.
  rewrite Hc, Hb. simpl.
  destruct (Qeq_bool b 0) eqn:E; [|done].
  apply Qeq_bool_eq in E. rewrite E in Hpos. by apply Qlt_irrefl in Hpos.
Qed.

Lemma classify_spec (change : Q) :
  (classify change = Regression <-> (5 < change)%Q) /\
  (classify change = Improvement <-> (change < -5)%Q) /\
  (classify change = Unchanged <-> (-5 <= change)%Q /\ (change <= 5)%Q).
Proof.
  unfold classify.
  destruct (Qltb 5 change) eqn:E1; [|destruct (Qltb change (-5)) eqn:E2].
  - apply Qltb_lt in E1. repeat split; try done.
    + intros H. exfalso. apply (Qlt_irrefl 5).
      eapply Qlt_trans; [exact E1|]. eapply Qlt_trans; [exact H|]. reflexivity.
    + intros [_ H]. exfalso. by apply (Qlt_not_le _ _ E1).
  - apply Qltb_ge in E1. apply Qltb_lt in E2. repeat split; try done.
    + intros H. exfalso. by apply (Qlt_not_le _ _ H).
    + intros [H _]. exfalso. by apply (Qlt_not_le _ _ E2).
  - apply Qltb_ge in E1. apply Qltb_ge in E2. repeat split; try done.
    + intros H. exfalso. by apply (Qlt_not_le _ _ H).
    + intros H. exfalso. by apply (Qlt_not_le _ _ H).
Qed.

(** What [compare_pair] returns when it returns a result. *)
Lemma compare_pair_Some (cb bb : bench) (change : Q) (cl : classification) :
  compare_pair cb bb = Ok (Some (change, cl)) ->
  exists c b,
    as_number (get_ns_per_op cb) = Ok c /\
    as_number (get_ns_per_op bb) = Ok b /\
    (0 < c)%Q /\ (0 < b)%Q /\
    change = ((c - b) / b * 100)%Q /\ cl = classify change.
Proof.
  unfold compare_pair. rewrite bind_Ok. intros ([] & Hpos & H); [|discriminate].
  apply both_positive_true in Hpos as (b & c & Hb & Hc & Hb0 & Hc0).
  rewrite (change_pct_numeric _ _ c b Hc Hb Hb0) in H. simpl in H.
  injection H as <- <-. exists c, b. done.
Qed.

(** ** The baseline lookup *)

Lemma find_rev_snoc {A} (p : A -> bool) (l : list A) (a : A) :
  List.find p (rev (l ++ [a])) = if p a then Some a else List.find p (rev l).
Proof. by rewrite rev_unit. Qed.

Lemma find_rev_cons {A} (p : A -> bool) (a : A) (l : list A) :
  List.find p (rev (a :: l)) =
  match List.find p (rev l) with
  | Some x => Some x
  | None => if p a then Some a else None
  end.
Proof.
  simpl. generalize (rev l) as r. intros r.
  induction r as [|y r IH]; simpl; [done|].
  by destruct (p y).
Qed.

(** [List.find] on the reversed list returns the last element that
    satisfies the test. *)
Lemma find_rev_Some {A} (p : A -> bool) (l : list A) (x : A) :
  List.find p (rev l) = Some x <->
  exists l1 l2, l = l1 ++ x :: l2 /\ p x = true /\ Forall (fun y => p y = false) l2.
Proof.
  induction l as [|a l IH] using rev_ind.
  - simpl. split; [done|]. intros (l1 & l2 & H & _). by destruct l1.
  - rewrite find_rev_snoc. destruct (p a) eqn:Ea.
    + split.
      * intros [= <-]. exists l, []. by repeat split.
      * intros (l1 & l2 & H & Hx & Hl2).
        destruct l2 as [|z l2 _] using rev_ind.
        -- apply (app_inj_tail l l1) in H as [_ ->]. done.
        -- rewrite app_comm_cons, app_assoc in H.
           apply app_inj_tail in H as [_ ->].
           apply Forall_app in Hl2 as [_ Hz]. apply Forall_inv in Hz. congruence.
    + rewrite IH. split.
      * intros (l1 & l2 & -> & Hx & Hl2). exists l1, (l2 ++ [a]).
        rewrite <- app_assoc. repeat split; [done|].
        apply Forall_app. split; [done|]. by repeat constructor.
      * intros (l1 & l2 & H & Hx & Hl2).
        destruct l2 as [|z l2 _] using rev_ind.
        -- apply (app_inj_tail l l1) in H as [_ ->]. congruence.
        -- rewrite app_comm_cons, app_assoc in H.
           apply app_inj_tail in H as [-> ->].
           apply Forall_app in Hl2 as [Hl2 _]. by exists l1, l2.
Qed.

Lemma find_rev_None {A} (p : A -> bool) (l : list A) :
  List.find p (rev l) = None <-> Forall (fun y => p y = false) l.
Proof.
  induction l as [|a l IH].
  - simpl. split; [constructor | done].
  - rewrite find_rev_cons, Forall_cons.
    destruct (List.find p (rev l)) as [x|].
    + split; [done|]. intros [_ H]. by apply IH in H.
    + destruct (p a); split; try done.
      * by intros [? _].
      * intros _. split; [done|]. by apply IH.
Qed.

(** The dict built by the comprehension holds, under every name, the last
    baseline entry of that name, and the entries of [acc] elsewhere. *)
Lemma build_lookup_spec (bs : list bench) (acc m : gmap string bench) :
  build_lookup bs acc = Ok m ->
  forall n, m !! n = match Spec.lookup bs n with
                     | Some b => Some b
                     | None => acc !! n
                     end.
Proof.
  revert acc. induction bs as [|b bs IH]; intros acc H n.
  - simpl in H. by injection H as <-.
  - simpl in H. apply bind_Ok in H as (nb & Hnb & H).
    unfold getitem_name in Hnb. destruct (name b) as [nb'|] eqn:Eb; [|done].
    injection Hnb as ->.
    rewrite (IH _ H n). unfold Spec.lookup. rewrite find_rev_cons.
    destruct (List.find _ (rev bs)); [done|].
    rewrite Eb, lookup_insert.
    destruct (decide (nb = n)) as [->|Hne].
    + by rewrite bool_decide_eq_true_2.
    + rewrite bool_decide_eq_false_2; [done|]. congruence.
Qed.

Lemma baseline_lookup_spec (bs : list bench) (m : gmap string bench) :
  baseline_lookup bs = Ok m -> forall n, m !! n = Spec.lookup bs n.
Proof.
  intros H n. rewrite (build_lookup_spec _ _ _ H n), lookup_empty.
  by destruct (Spec.lookup bs n).
Qed.

Lemma build_lookup_named (bs : list bench) (acc : gmap string bench) :
  Forall named bs -> exists m, build_lookup bs acc = Ok m.
Proof.
  intros H. revert acc. induction H as [|b bs [n Hn] _ IH]; intros acc.
  - by exists acc.
  - simpl. unfold getitem_name. rewrite Hn. simpl. apply IH.
Qed.

Lemma build_lookup_unnamed (bs : list bench) (acc : gmap string bench) :
  ~ Forall named bs -> build_lookup bs acc = Raise KeyError.
Proof.
  revert acc. induction bs as [|b bs IH]; intros acc H.
  - exfalso. apply H. constructor.
  - simpl. unfold getitem_name. destruct (name b) as [n|] eqn:Eb; [|done].
    simpl. apply IH. intros Hbs. apply H. constructor; [|done]. by exists n.
Qed.

(** The comprehension raises nothing but [KeyError]. *)
Lemma build_lookup_Raise (bs : list bench) (acc : gmap string bench) (e : exn) :
  build_lookup bs acc = Raise e -> e = KeyError.
Proof.
  revert acc. induction bs as [|b bs IH]; intros acc H; [done|].
  simpl in H. unfold getitem_name in H. destruct (name b); simpl in H.
  - by apply IH in H.
  - by injection H.
Qed.

(** ** The loop bodies against the specification *)

Lemma classify_refines (change : Q) : Spec.classify 5 change = classify change.
Proof.
  unfold Spec.classify, classify. change (Qopp 5) with (-5)%Q.
  destruct (decide (5 < change)%Q) as [H|H].
  - apply Qltb_lt in H. by rewrite H.
  - destruct (Qltb 5 change) eqn:E; [by apply Qltb_lt in E|].
    destruct (decide (change < -5)%Q) as [H'|H'].
    + apply Qltb_lt in H'. by rewrite H'.
    + destruct (Qltb change (-5)) eqn:E'; [by apply Qltb_lt in E'|done].
Qed.

Lemma both_positive_false (bv cv : pyval) :
  both_positive bv cv = Ok false ->
  exists b, as_number bv = Ok b /\
    ((b <= 0)%Q \/ exists c, as_number cv = Ok c /\ (c <= 0)%Q).
Proof.
  unfold both_positive. rewrite bind_Ok. intros (bp & Hb & H).
  apply py_gt_Ok in Hb as (b & Hb & ->). exists b. split; [done|].
  destruct (Qltb 0 b) eqn:Eb.
  - right. apply py_gt_Ok in H as (c & Hc & Ec). exists c. split; [done|].
    by apply Qltb_ge.
  - left. by apply Qltb_ge.
Qed.

Lemma spec_ns_number (m : bench) (q : Q) :
  as_number (get_ns_per_op m) = Ok q -> Spec.ns m = Some q.
Proof. unfold Spec.ns. by intros ->. Qed.

Lemma compare_one_skip (base : list bench) (cb bb : bench) (n : string) :
  name cb = Some n -> Spec.lookup base n = Some bb ->
  both_positive (get_ns_per_op bb) (get_ns_per_op cb) = Ok false ->
  Spec.compare_one 5 base cb = None.
Proof.
  intros Hn Hbb H. apply both_positive_false in H as (b & Hb & H).
  unfold Spec.compare_one. rewrite Hn. simpl. rewrite Hbb. simpl.
  rewrite (spec_ns_number _ _ Hb).
  destruct (Spec.ns cb) as [c|] eqn:Ec; simpl; [|done].
  destruct (decide (0 < c)%Q) as [Hc|]; [|done].
  destruct (decide (0 < b)%Q) as [Hb0|]; [|done].
  destruct H as [H | (c' & Hc' & H)].
  - by apply Qlt_not_le in Hb0.
  - rewrite (spec_ns_number _ _ Hc') in Ec. injection Ec as ->.
    by apply Qlt_not_le in Hc.
Qed.

Lemma compare_one_numeric (base : list bench) (cb bb : bench) (n : string) (c b : Q) :
  name cb = Some n -> Spec.lookup base n = Some bb ->
  as_number (get_ns_per_op cb) = Ok c -> as_number (get_ns_per_op bb) = Ok b ->
  (0 < c)%Q -> (0 < b)%Q ->
  Spec.compare_one 5 base cb =
  Some {| Spec.r_name := n;
          Spec.r_current_ns := c;
          Spec.r_baseline_ns := b;
          Spec.r_change_pct := ((c - b) / b * 100)%Q;
          Spec.r_classification := classify ((c - b) / b * 100)%Q |}.
Proof.
  intros Hn Hbb Hc Hb Hc0 Hb0.
  unfold Spec.compare_one. rewrite Hn. simpl. rewrite Hbb. simpl.
  rewrite (spec_ns_number _ _ Hc), (spec_ns_number _ _ Hb). simpl.
  rewrite !decide_True by done. by rewrite classify_refines.
Qed.

Lemma compare_one_unmatched (base : list bench) (cb : bench) (n : string) :
  name cb = Some n -> Spec.lookup base n = None ->
  Spec.compare_one 5 base cb = None.
Proof.
  intros Hn Hbb. unfold Spec.compare_one. rewrite Hn. simpl. by rewrite Hbb.
Qed.

(** One iteration of the summary loop counts what the specification's
    comparison of that measurement says. *)
Lemma summary_body_refines (base : list bench) (lookup : gmap string bench)
    (st st' : Z * Z) (cb : bench) :
  (forall n, lookup !! n = Spec.lookup base n) ->
  summary_body lookup st cb = Ok st' ->
  st' = count_result st (Spec.compare_one 5 base cb).
Proof.
  intros Hl. unfold summary_body. rewrite bind_Ok. intros (n & Hn & H).
  unfold getitem_name in Hn. destruct (name cb) as [n'|] eqn:En; [|done].
  injection Hn as ->. rewrite Hl in H.
  destruct (Spec.lookup base n) as [bb|] eqn:Ebb.
  - apply bind_Ok in H as (o & Ho & [= <-]). unfold compare_pair in Ho.
    apply bind_Ok in Ho as ([] & Hpos & Ho).
    + destruct (both_positive_true _ _ Hpos) as (b & c & Hb & Hc & Hb0 & Hc0).
      rewrite (change_pct_numeric _ _ c b Hc Hb Hb0) in Ho. simpl in Ho.
      injection Ho as <-.
      by rewrite (compare_one_numeric base cb bb n c b).
    + injection Ho as <-. by rewrite (compare_one_skip base cb bb n).
  - injection H as <-. by rewrite (compare_one_unmatched base cb n).
Qed.

Lemma count_result_fst (st : Z * Z) (o : option Spec.ComparisonResult) :
  fst (count_result st o) =
  (fst st + Z.of_nat (Spec.tally Regression (option_list o)))%Z.
Proof.
  destruct o as [[? ? ? ? []]|]; unfold count_result, Spec.tally; simpl; lia.
Qed.

Lemma count_result_snd (st : Z * Z) (o : option Spec.ComparisonResult) :
  snd (count_result st o) =
  (snd st + Z.of_nat (Spec.tally Improvement (option_list o)))%Z.
Proof.
  destruct o as [[? ? ? ? []]|]; unfold count_result, Spec.tally; simpl; lia.
Qed.

Lemma tally_app (c : classification) (l1 l2 : list Spec.ComparisonResult) :
  Spec.tally c (l1 ++ l2) = Spec.tally c l1 + Spec.tally c l2.
Proof. unfold Spec.tally. by rewrite filter_app, length_app. Qed.

Lemma compare_cons (t : Q) (cb : bench) (cur base : list bench) :
  Spec.compare t (cb :: cur) base =
  option_list (Spec.compare_one t base cb) ++ Spec.compare t cur base.
Proof. unfold Spec.compare. simpl. by destruct (Spec.compare_one t base cb). Qed.

Lemma summary_loop_refines (base : list bench) (lookup : gmap string bench)
    (cur : list bench) (st st' : Z * Z) :
  (forall n, lookup !! n = Spec.lookup base n) ->
  summary_loop lookup st cur = Ok st' ->
  fst st' = (fst st + Z.of_nat (Spec.tally Regression (Spec.compare 5 cur base)))%Z /\
  snd st' = (snd st + Z.of_nat (Spec.tally Improvement (Spec.compare 5 cur base)))%Z.
Proof.
  intros Hl. revert st. induction cur as [|cb cur IH]; intros st H.
  - simpl in H. injection H as <-. unfold Spec.tally. simpl. lia.
  - simpl in H. apply bind_Ok in H as (st1 & H1 & H).
    apply (summary_body_refines base) in H1; [|done]. subst st1.
    apply IH in H as [Hr Hi]. rewrite compare_cons, !tally_app.
    rewrite count_result_fst in Hr. rewrite count_result_snd in Hi. lia.
Qed.

(** One iteration of the chart loop appends a row exactly when the
    specification emits a result, for the same pair. *)
Lemma chart_body_refines (base : list bench) (lookup : gmap string bench)
    (cb : bench) (o : option row) :
  (forall n, lookup !! n = Spec.lookup base n) ->
  chart_body lookup cb = Ok o ->
  option_Forall2 row_matches o (Spec.compare_one 5 base cb).
Proof.
  intros Hl. unfold chart_body. rewrite bind_Ok. intros (n & Hn & H).
  unfold getitem_name in Hn. destruct (name cb) as [n'|] eqn:En; [|done].
  injection Hn as ->. rewrite Hl in H.
  destruct (Spec.lookup base n) as [bb|] eqn:Ebb.
  - unfold chart_pair in H. apply bind_Ok in H as ([] & Hpos & Ho).
    + destruct (both_positive_true _ _ Hpos) as (b & c & Hb & Hc & Hb0 & Hc0).
      rewrite (improvement_pct_numeric _ _ c b Hc Hb Hb0) in Ho. simpl in Ho.
      injection Ho as <-.
      rewrite (compare_one_numeric base cb bb n c b) by done.
      constructor. repeat split; simpl; try done.
      field. intros E. rewrite E in Hb0. by apply Qlt_irrefl in Hb0.
    + injection Ho as <-. rewrite (compare_one_skip base cb bb n) by done.
      constructor.
  - injection H as <-. rewrite (compare_one_unmatched base cb n) by done.
    constructor.
Qed.

Lemma chart_loop_refines (base : list bench) (lookup : gmap string bench)
    (cur : list bench) (rows : list row) :
  (forall n, lookup !! n = Spec.lookup base n) ->
  chart_loop lookup cur = Ok rows ->
  Forall2 row_matches rows (Spec.compare 5 cur base).
Proof.
  intros Hl. revert rows. induction cur as [|cb cur IH]; intros rows H.
  - simpl in H. injection H as <-. constructor.
  - simpl in H. apply bind_Ok in H as (o & Ho & H).
    apply bind_Ok in H as (rs & Hrs & [= <-]).
    apply (chart_body_refines base) in Ho; [|done].
    rewrite compare_cons. specialize (IH _ Hrs).
    destruct Ho; simpl; [by constructor | done].
Qed.

(** A row comes from the entry the loop is visiting, and only from an
    entry whose name the lookup holds. *)
Lemma chart_body_row_of (lookup : gmap string bench) (cb : bench) (x : row) :
  chart_body lookup cb = Ok (Some x) ->
  row_of x cb /\ exists n, name cb = Some n /\ is_Some (lookup !! n).
Proof.
  unfold chart_body. rewrite bind_Ok. intros (n & Hn & H).
  unfold getitem_name in Hn. destruct (name cb) as [n'|] eqn:En; [|done].
  injection Hn as ->.
  destruct (lookup !! n) as [bb|] eqn:Ebb; [|done].
  unfold chart_pair in H. apply bind_Ok in H as ([] & _ & H); [|done].
  apply bind_Ok in H as (imp & _ & [= <-]).
  split; exists n; [by repeat split | by split; [|eexists]].
Qed.

Lemma chart_loop_sublist (lookup : gmap string bench) (cur : list bench)
    (rows : list row) :
  chart_loop lookup cur = Ok rows ->
  exists kept,
    sublist kept cur /\
    Forall2 row_of rows kept /\
    Forall (fun cb => exists n, name cb = Some n /\ is_Some (lookup !! n)) kept.
Proof.
  revert rows. induction cur as [|cb cur IH]; intros rows H.
  - simpl in H. injection H as <-. exists []. by repeat constructor.
  - simpl in H. apply bind_Ok in H as (o & Ho & H).
    apply bind_Ok in H as (rs & Hrs & [= <-]).
    destruct (IH _ Hrs) as (kept & Hsub & Hrows & Hin).
    destruct o as [x|].
    + apply chart_body_row_of in Ho as [Hx Hn].
      exists (cb :: kept). repeat split; by constructor.
    + exists kept. repeat split; [by constructor | done | done].
Qed.

(** ** Counting rows against the baseline *)

Lemma build_lookup_size (bs : list bench) (acc m : gmap string bench) :
  build_lookup bs acc = Ok m -> size m <= size acc + length bs.
Proof.
  revert acc. induction bs as [|b bs IH]; intros acc H.
  - simpl in H. injection H as <-. simpl. lia.
  - simpl in H. apply bind_Ok in H as (n & _ & H). apply IH in H.
    pose proof (map_size_insert n b acc) as Hs.
    destruct (acc !! n); simpl in *; lia.
Qed.

Lemma distinct_names_size (m : gmap string bench) (kept : list bench) :
  NoDup (name <$> kept) ->
  Forall (fun cb => exists n, name cb = Some n /\ is_Some (m !! n)) kept ->
  length kept <= size m.
Proof.
  revert m. induction kept as [|cb kept IH]; intros m Hnd Hin; simpl; [lia|].
  rewrite fmap_cons in Hnd. apply NoDup_cons in Hnd as [Hcb Hnd].
  apply Forall_cons in Hin as [(n & Hn & [bb Hbb]) Hin].
  assert (length kept <= size (delete n m)) as Hle.
  { apply IH; [done|]. rewrite Forall_forall in Hin |- *.
    intros cb' Hel. destruct (Hin cb' Hel) as (n' & Hn' & Hs').
    exists n'. split; [done|].
    rewrite lookup_delete_ne; [done|]. intros ->.
    apply Hcb. rewrite Hn, <- Hn'. by apply list_elem_of_fmap_2. }
  pose proof (map_size_delete n m) as Hs. rewrite Hbb in Hs. simpl in Hs.
  assert (size m <> 0).
  { intros E. apply map_size_empty_inv in E. subst m. by rewrite lookup_empty in Hbb. }
  lia.
Qed.

(** ** The score *)

Lemma spec_timing_number (m : bench) (q : Q) :
  as_number (get_ns_per_op m) = Ok q -> Spec.timing m = Some q.
Proof.
  unfold Spec.timing, get_ns_per_op.
  destruct (ns_per_op m) as [[]|]; simpl; intros H; try discriminate H;
    by injection H as <-.
Qed.

Lemma positive_ns_cons (b : bench) (bs : list bench) (q : Q) :
  as_number (get_ns_per_op b) = Ok q ->
  Spec.positive_ns (b :: bs) =
  if Qltb 0 q then q :: Spec.positive_ns bs else Spec.positive_ns bs.
Proof.
  intros Hq. unfold Spec.positive_ns. simpl.
  rewrite (spec_timing_number _ _ Hq). rewrite filter_cons.
  destruct (decide (0 < q)%Q) as [H|H].
  - apply Qltb_lt in H. by rewrite H.
  - destruct (Qltb 0 q) eqn:E; [by apply Qltb_lt in E | done].
Qed.

Lemma positive_ns_positive (bs : list bench) :
  Forall (fun q => (0 < q)%Q) (Spec.positive_ns bs).
Proof.
  apply Forall_forall. intros q Hq. unfold Spec.positive_ns in Hq.
  by apply list_elem_of_filter in Hq as [Hq _].
Qed.

(** On numeric entries the comprehension of line 238 keeps exactly the
    positive timings, in order. *)
Lemma ns_values_numeric (bs : list bench) :
  Forall numeric bs ->
  exists vs, ns_values bs = Ok vs /\
             Forall2 (fun v q => as_number v = Ok q) vs (Spec.positive_ns bs).
Proof.
  induction 1 as [|b bs [q Hq] _ (vs & Hvs & IH)].
  - exists []. split; [done | constructor].
  - simpl. unfold py_gt. rewrite Hq, Hvs. simpl.
    rewrite (positive_ns_cons b bs q Hq).
    destruct (Qltb 0 q); eexists; split; try done. by constructor.
Qed.

Lemma ns_values_Ok_numeric (bs : list bench) (vs : list pyval) :
  ns_values bs = Ok vs -> Forall numeric bs.
Proof.
  revert vs. induction bs as [|b bs IH]; intros vs; simpl; [constructor|].
  rewrite bind_Ok. intros (keep & Hk & H).
  apply bind_Ok in H as (vs' & Hvs & _).
  apply py_gt_Ok in Hk as (q & Hq & _).
  constructor; [by exists q | by eapply IH].
Qed.

Lemma score_Ok_numeric (d : data) (s : Q) :
  calculate_performance_score d = Ok s -> Forall numeric (get_benchmarks d).
Proof.
  unfold calculate_performance_score.
  destruct (get_benchmarks d) as [|b bs]; [constructor|].
  rewrite bind_Ok. intros (vs & Hvs & _). by apply ns_values_Ok_numeric in Hvs.
Qed.

(** The typed reading of a value agrees with its numeric view. *)
Lemma typed_number_value (v : pyval) (q : Q) :
  as_number v = Ok q ->
  exists x, typed_number v = Ok x /\ number_value x = q.
Proof.
  destruct v as [|[]|z|q'|s]; simpl; intros H; try discriminate H;
    injection H as <-; by eexists.
Qed.

Lemma fits_float_nonneg (x : Q) :
  (0 <= x)%Q -> (x < float_limit)%Q -> fits_float x = true.
Proof.
  intros H0 Hlt. unfold fits_float. apply Qltb_lt. by rewrite Qabs_pos.
Qed.

(** What [acc + v] evaluates to, when it does. *)
Lemma py_add_Ok (acc acc' : number) (v : pyval) (q : Q) :
  as_number v = Ok q ->
  py_add acc v = Ok acc' ->
  (number_value acc' == number_value acc + q)%Q.
Proof.
  intros Hq. destruct (typed_number_value v q Hq) as (x & Hx & <-).
  unfold py_add. rewrite Hx. cbn [bind].
  destruct acc as [m|p], x as [n|r]; simpl.
  - intros [= <-]. simpl. by rewrite inject_Z_plus.
  - unfold int_to_float. destruct (fits_float (inject_Z m)); [|done].
    by intros [= <-].
  - unfold int_to_float. destruct (fits_float (inject_Z n)); [|done].
    by intros [= <-].
  - by intros [= <-].
Qed.

Lemma py_sum_Ok (vs : list pyval) (qs : list Q) (acc t : number) :
  Forall2 (fun v q => as_number v = Ok q) vs qs ->
  py_sum acc vs = Ok t ->
  (number_value t == number_value acc + Spec.total qs)%Q.
Proof.
  intros H. revert acc. induction H as [|v q vs qs Hv _ IH]; intros acc.
  - simpl. intros [= <-]. unfold Spec.total. simpl. lra.
  - simpl. rewrite bind_Ok. intros (acc' & Ha & Ht).
    apply IH in Ht. apply (py_add_Ok _ _ _ _ Hv) in Ha.
    rewrite Ht, Ha. unfold Spec.total. simpl. lra.
Qed.

Lemma total_nonneg (l : list Q) :
  Forall (fun q => (0 < q)%Q) l -> (0 <= Spec.total l)%Q.
Proof.
  induction 1 as [|q l Hq _ IH]; unfold Spec.total in *; simpl; lra.
Qed.

(** Within the range of floats [acc + v] is defined. *)
Lemma py_add_fits (acc : number) (v : pyval) (q : Q) :
  as_number v = Ok q ->
  (0 <= number_value acc)%Q -> (0 <= q)%Q ->
  (number_value acc < float_limit)%Q -> (q < float_limit)%Q ->
  exists acc', py_add acc v = Ok acc'.
Proof.
  intros Hq Ha0 Hq0 Ha Hql. destruct (typed_number_value v q Hq) as (x & Hx & <-).
  unfold py_add. rewrite Hx. cbn [bind].
  destruct acc as [m|p], x as [n|r]; simpl in *.
  - by eexists.
  - unfold int_to_float. rewrite fits_float_nonneg by done. by eexists.
  - unfold int_to_float. rewrite fits_float_nonneg by done. by eexists.
  - by eexists.
Qed.

Lemma py_sum_fits (vs : list pyval) (qs : list Q) (acc : number) :
  Forall2 (fun v q => as_number v = Ok q) vs qs ->
  Forall (fun q => (0 < q)%Q) qs ->
  (0 <= number_value acc)%Q ->
  (number_value acc + Spec.total qs < float_limit)%Q ->
  exists t, py_sum acc vs = Ok t.
Proof.
  intros H. revert acc. induction H as [|v q vs qs Hv _ IH]; intros acc Hpos Ha0 Hlt.
  - by exists acc.
  - apply Forall_cons in Hpos as [Hq0 Hpos].
    pose proof (total_nonneg qs Hpos) as Ht0.
    unfold Spec.total in Hlt. simpl in Hlt. fold (Spec.total qs) in Hlt.
    destruct (py_add_fits acc v q Hv) as [acc' Ha]; try lra.
    simpl. rewrite Ha. cbn [bind].
    apply (py_add_Ok _ _ _ _ Hv) in Ha. apply IH; [done| |]; rewrite Ha; lra.
Qed.

Lemma length_as_divisor {A} (l : list A) :
  l <> [] -> (1 <= inject_Z (Z.of_nat (length l)))%Q.
Proof.
  intros Hl. destruct l as [|a l]; [done|].
  change 1%Q with (inject_Z 1). rewrite <- Zle_Qle. simpl. lia.
Qed.

Lemma py_truediv_len_Ok {A} (total : number) (l : list A) (avg : Q) :
  py_truediv_len total l = Ok avg ->
  avg = (number_value total / inject_Z (Z.of_nat (length l)))%Q.
Proof.
  unfold py_truediv_len. destruct (Qeq_bool _ 0); [done|].
  destruct total as [z|q]; simpl.
  - destruct (fits_float _); [|done]. by intros [= <-].
  - by intros [= <-].
Qed.

Lemma quotient_below (x k : Q) :
  (0 <= x)%Q -> (1 <= k)%Q -> (0 <= x / k)%Q /\ (x / k <= x)%Q.
Proof.
  intros Hx Hk. split.
  - apply Qle_shift_div_l; lra.
  - apply Qle_shift_div_r; [lra|].
    assert (0 <= x * (k - 1))%Q by (apply Qmult_le_0_compat; lra). lra.
Qed.

Lemma py_truediv_len_fits {A} (total : number) (l : list A) :
  l <> [] ->
  (0 <= number_value total)%Q -> (number_value total < float_limit)%Q ->
  exists avg, py_truediv_len total l = Ok avg.
Proof.
  intros Hl H0 Hlt. pose proof (length_as_divisor l Hl) as Hk.
  unfold py_truediv_len.
  destruct (Qeq_bool _ 0) eqn:E; [apply Qeq_bool_iff in E; lra|].
  destruct total as [z|q]; simpl in *; [|by eexists].
  destruct (quotient_below (inject_Z z) _ H0 Hk) as [Hq0 Hq].
  rewrite fits_float_nonneg; [by eexists | done | lra].
Qed.

Lemma py_clamp_refines (x y : Q) :
  (x == y)%Q -> (py_min 100 (py_max 0 x) == Spec.clamp 0 100 y)%Q.
Proof.
  intros E. unfold py_min, py_max, Spec.clamp.
  destruct (Qltb 0 x) eqn:E1.
  - apply Qltb_lt in E1.
    destruct (decide (y < 0)%Q); [lra|].
    destruct (Qltb x 100) eqn:E2.
    + apply Qltb_lt in E2. destruct (decide (100 < y)%Q); [lra|done].
    + apply Qltb_ge in E2. destruct (decide (100 < y)%Q); lra.
  - apply Qltb_ge in E1. change (Qltb 0 100) with true. cbv iota.
    destruct (decide (y < 0)%Q); [lra|].
    destruct (decide (100 < y)%Q); lra.
Qed.

(** Whenever the score is computed, it is the specification's score. *)
Lemma score_Ok_spec (d : data) (s : Q) :
  calculate_performance_score d = Ok s ->
  (s == Spec.score (get_benchmarks d))%Q.
Proof.
  intros H. pose proof (score_Ok_numeric d s H) as Hnum.
  unfold calculate_performance_score in H. unfold Spec.score.
  destruct (ns_values_numeric _ Hnum) as (vs & Hvs & Hrel).
  destruct (get_benchmarks d) as [|b bs] eqn:Ebs.
  - by injection H as <-.
  - rewrite Hvs in H. cbn [bind] in H.
    destruct Hrel as [|v q vs qs Hv Hrel].
    + by injection H as <-.
    + apply bind_Ok in H as (t & Ht & H).
      apply bind_Ok in H as (avg & Havg & [= <-]).
      apply py_truediv_len_Ok in Havg. subst avg.
      apply (py_sum_Ok _ (q :: qs)) in Ht; [|by constructor].
      apply py_clamp_refines. unfold Spec.mean. rewrite Ht.
      apply Forall2_length in Hrel. simpl length. rewrite Hrel.
      change (number_value (IntNum 0)) with 0%Q. by rewrite Qplus_0_l.
Qed.

(** The score is computed when the timings are numbers and the positive
    ones add up within the range of floats. *)
Lemma score_defined (d : data) :
  Forall numeric (get_benchmarks d) ->
  (Spec.total (Spec.positive_ns (get_benchmarks d)) < float_limit)%Q ->
  exists s, calculate_performance_score d = Ok s.
Proof.
  intros Hnum Hlt. unfold calculate_performance_score.
  destruct (ns_values_numeric _ Hnum) as (vs & Hvs & Hrel).
  pose proof (positive_ns_positive (get_benchmarks d)) as Hpos.
  destruct (get_benchmarks d) as [|b bs] eqn:Ebs; [by eexists|].
  rewrite Hvs. cbn [bind].
  destruct vs as [|v vs]; [by eexists|].
  destruct (py_sum_fits _ _ (IntNum 0) Hrel Hpos) as [t Ht];
    [done | change (number_value (IntNum 0)) with 0%Q; lra |].
  rewrite Ht. cbn [bind].
  pose proof (py_sum_Ok _ _ _ _ Hrel Ht) as Et.
  change (number_value (IntNum 0)) with 0%Q in Et.
  pose proof (total_nonneg _ Hpos) as Ht0.
  destruct (py_truediv_len_fits t (v :: vs)) as [avg ->]; [done| lra | lra |].
  cbn [bind]. by eexists.
Qed.

(** ** Which exceptions can escape *)

Lemma as_number_Raise (v : pyval) (e : exn) :
  as_number v = Raise e -> e = TypeError.
Proof. destruct v; simpl; congruence. Qed.

Lemma both_positive_Raise (bv cv : pyval) (e : exn) :
  both_positive bv cv = Raise e -> e = TypeError.
Proof.
  unfold both_positive, py_gt.
  destruct (as_number bv) as [b|eb] eqn:Eb; simpl.
  - destruct (Qltb 0 b); [|done].
    destruct (as_number cv) as [c|ec] eqn:Ec; simpl; [done|].
    intros [= <-]. by apply as_number_Raise in Ec.
  - intros [= <-]. by apply as_number_Raise in Eb.
Qed.

Lemma compare_pair_Raise (cb bb : bench) (e : exn) :
  compare_pair cb bb = Raise e -> e = TypeError.
Proof.
  unfold compare_pair.
  destruct (both_positive _ _) as [[]|e'] eqn:E; simpl; [| done |].
  - destruct (both_positive_true _ _ E) as (b & c & Hb & Hc & Hb0 & _).
    by rewrite (change_pct_numeric _ _ c b Hc Hb Hb0).
  - intros [= <-]. by apply both_positive_Raise in E.
Qed.

Lemma chart_pair_Raise (n : string) (cb bb : bench) (e : exn) :
  chart_pair n cb bb = Raise e -> e = TypeError.
Proof.
  unfold chart_pair.
  destruct (both_positive _ _) as [[]|e'] eqn:E; simpl; [| done |].
  - destruct (both_positive_true _ _ E) as (b & c & Hb & Hc & Hb0 & _).
    by rewrite (improvement_pct_numeric _ _ c b Hc Hb Hb0).
  - intros [= <-]. by apply both_positive_Raise in E.
Qed.

Lemma summary_body_Raise (lookup : gmap string bench) (st : Z * Z)
    (cb : bench) (e : exn) :
  summary_body lookup st cb = Raise e -> e = KeyError \/ e = TypeError.
Proof.
  unfold summary_body, getitem_name. destruct (name cb) as [n|]; simpl.
  - destruct (lookup !! n) as [bb|]; [|done].
    destruct (compare_pair cb bb) as [o|e'] eqn:E; simpl; [done|].
    intros [= <-]. right. by apply compare_pair_Raise in E.
  - intros [= <-]. by left.
Qed.

Lemma summary_loop_Raise (lookup : gmap string bench) (cur : list bench)
    (st : Z * Z) (e : exn) :
  summary_loop lookup st cur = Raise e -> e = KeyError \/ e = TypeError.
Proof.
  revert st. induction cur as [|cb cur IH]; intros st; simpl; [done|].
  rewrite bind_Raise. intros [H | (st' & _ & H)].
  - by apply summary_body_Raise in H.
  - by apply IH in H.
Qed.

Lemma chart_body_Raise (lookup : gmap string bench) (cb : bench) (e : exn) :
  chart_body lookup cb = Raise e -> e = KeyError \/ e = TypeError.
Proof.
  unfold chart_body, getitem_name. destruct (name cb) as [n|]; simpl.
  - destruct (lookup !! n) as [bb|]; [|done].
    intros H. right. by apply chart_pair_Raise in H.
  - intros [= <-]. by left.
Qed.

Lemma chart_loop_Raise (lookup : gmap string bench) (cur : list bench) (e : exn) :
  chart_loop lookup cur = Raise e -> e = KeyError \/ e = TypeError.
Proof.
  induction cur as [|cb cur IH]; simpl; [done|].
  rewrite bind_Raise. intros [H | (o & _ & H)].
  - by apply chart_body_Raise in H.
  - apply bind_Raise in H as [H | (rows & _ & H)]; [by apply IH in H | done].
Qed.

Lemma ns_values_Raise (bs : list bench) (e : exn) :
  ns_values bs = Raise e -> e = TypeError.
Proof.
  induction bs as [|b bs IH]; simpl; [done|].
  rewrite bind_Raise. intros [H | (keep & _ & H)].
  - unfold py_gt in H. apply bind_Raise in H as [H | (x & _ & H)]; [|done].
    by apply as_number_Raise in H.
  - apply bind_Raise in H as [H | (vs & _ & H)]; [by apply IH in H | done].
Qed.

Lemma py_add_Raise (acc : number) (v : pyval) (e : exn) :
  py_add acc v = Raise e -> e = TypeError \/ e = OverflowError.
Proof.
  unfold py_add. destruct (typed_number v) as [x|e'] eqn:Ex; cbn [bind].
  - unfold int_to_float.
    destruct acc as [m|p], x as [n|r]; [done| | |done].
    + destruct (fits_float (inject_Z m)); [done|]. intros [= <-]. by right.
    + destruct (fits_float (inject_Z n)); [done|]. intros [= <-]. by right.
  - intros [= <-]. left. destruct v; simpl in Ex; congruence.
Qed.

Lemma py_sum_Raise (vs : list pyval) (acc : number) (e : exn) :
  py_sum acc vs = Raise e -> e = TypeError \/ e = OverflowError.
Proof.
  revert acc. induction vs as [|v vs IH]; intros acc; simpl; [done|].
  rewrite bind_Raise. intros [H | (x & _ & H)].
  - by apply py_add_Raise in H.
  - by apply IH in H.
Qed.

Lemma py_truediv_len_Raise {A} (total : number) (l : list A) (e : exn) :
  l <> [] -> py_truediv_len total l = Raise e -> e = OverflowError.
Proof.
  intros Hl. pose proof (length_as_divisor l Hl) as Hk. unfold py_truediv_len.
  destruct (Qeq_bool _ 0) eqn:E; [apply Qeq_bool_iff in E; lra|].
  destruct total as [z|q]; [|done].
  destruct (fits_float _); [done|]. by intros [= <-].
Qed.

Lemma score_Raise (d : data) (e : exn) :
  calculate_performance_score d = Raise e -> e = TypeError \/ e = OverflowError.
Proof.
  unfold calculate_performance_score.
  destruct (get_benchmarks d) as [|b bs]; [done|].
  rewrite bind_Raise. intros [H | (vs & _ & H)].
  - left. by apply ns_values_Raise in H.
  - destruct vs as [|v vs]; [done|].
    apply bind_Raise in H as [H | (t & _ & H)]; [by apply py_sum_Raise in H|].
    apply bind_Raise in H as [H | (avg & _ & H)]; [|done].
    right. by apply py_truediv_len_Raise in H.
Qed.

Lemma ax1_pie_Raise (sizes : list Z) (e : exn) :
  ax1_pie sizes = Raise e -> e = ValueError.
Proof. unfold ax1_pie. destruct (forallb _ _); [by intros [= <-] | done]. Qed.

Lemma create_summary_report_Raise (cur base : data) (e : exn) :
  create_summary_report cur base = Raise e ->
  e = KeyError \/ e = TypeError \/ e = OverflowError \/ e = ValueError.
Proof.
  unfold create_summary_report.
  rewrite bind_Raise. intros [H | (lookup & _ & H)].
  { left. by apply build_lookup_Raise in H. }
  apply bind_Raise in H as [H | (st & _ & H)].
  { apply summary_loop_Raise in H. tauto. }
  apply bind_Raise in H as [H | (u & _ & H)].
  { apply ax1_pie_Raise in H. tauto. }
  apply bind_Raise in H as [H | (cs & _ & H)].
  { apply score_Raise in H. tauto. }
  apply bind_Raise in H as [H | (bs & _ & H)]; [|done].
  apply score_Raise in H. tauto.
Qed.

Lemma create_chart_Raise (cur base : data) (e : exn) :
  create_benchmark_comparison_chart cur base = Raise e ->
  e = KeyError \/ e = TypeError.
Proof.
  unfold create_benchmark_comparison_chart.
  rewrite bind_Raise. intros [H | (lookup & _ & H)].
  - left. by apply build_lookup_Raise in H.
  - by apply chart_loop_Raise in H.
Qed.

(** ** Entries without a name *)

Lemma summary_loop_unnamed (lookup : gmap string bench) (cur : list bench)
    (st : Z * Z) :
  ~ Forall named cur -> exists e, summary_loop lookup st cur = Raise e.
Proof.
  revert st. induction cur as [|cb cur IH]; intros st H.
  - exfalso. apply H. constructor.
  - simpl. destruct (summary_body lookup st cb) as [st'|e] eqn:E; simpl; [|by eexists].
    apply IH. intros Hcur. apply H. constructor; [|done].
    unfold summary_body, getitem_name in E.
    destruct (name cb) as [n|] eqn:En; [by exists n | done].
Qed.

Lemma chart_loop_unnamed (lookup : gmap string bench) (cur : list bench) :
  ~ Forall named cur -> exists e, chart_loop lookup cur = Raise e.
Proof.
  induction cur as [|cb cur IH]; intros H.
  - exfalso. apply H. constructor.
  - simpl. destruct (chart_body lookup cb) as [o|e] eqn:E; simpl; [|by eexists].
    destruct IH as [e ->]; [|by eexists].
    intros Hcur. apply H. constructor; [|done].
    unfold chart_body, getitem_name in E.
    destruct (name cb) as [n|] eqn:En; [by exists n | done].
Qed.

(** * The claims *)

(** C1.  With the threshold 5 of lines 327-330, a matched pair that yields
    a comparison result is a Regression exactly when its change is above 5,
    an Improvement exactly when it is below -5, and Unchanged exactly when
    it lies in [-5, 5]; the three cases are exclusive and exhaustive.  In
    particular a current 210 ns/op against a baseline 200 ns/op has change 5
    and is Unchanged, and bumps neither counter of the summary; evaluated in
    binary64 the change is 5.0 exactly as well. *)
Theorem classification_by_threshold :
  (forall (current_bench baseline_bench : bench) (change : Q) (cl : classification),
      compare_pair current_bench baseline_bench = Ok (Some (change, cl)) ->
      (cl = Regression <-> (5 < change)%Q) /\
      (cl = Improvement <-> (change < -5)%Q) /\
      (cl = Unchanged <-> (-5 <= change)%Q /\ (change <= 5)%Q)) /\
  (exists change,
      compare_pair (measured "A" 210) (measured "A" 200)
        = Ok (Some (change, Unchanged)) /\
      (change == 5)%Q) /\
  (exists s,
      create_summary_report (report [measured "A" 210]) (report [measured "A" 200])
        = Ok s /\
      regressions s = 0%Z /\ improvements s = 0%Z /\ sizes s = [0; 0; 1]%Z) /\
  change_pct_binary64 210 200 = 5%float /\
  classify_binary64 (change_pct_binary64 210 200) = Unchanged.
Proof.
  split; [|split; [|split; [|split]]].
  - intros cb bb change cl H.
    apply compare_pair_Some in H as (c & b & _ & _ & _ & _ & _ & ->).
    apply classify_spec.
  - eexists. split; [vm_compute; reflexivity | reflexivity].
  - eexists. split; [vm_compute; reflexivity | by repeat split].
  - reflexivity.
  - reflexivity.
Qed.

(** The classification law at 300 ns/op against 200 ns/op, a Regression. *)
Lemma classification_by_threshold_witness :
  compare_pair (measured "A" 300) (measured "A" 200)
    = Ok (Some (((300 - 200) / 200 * 100)%Q, Regression)) /\
  ((Regression = Regression <-> (5 < (300 - 200) / 200 * 100)%Q) /\
   (Regression = Improvement <-> ((300 - 200) / 200 * 100 < -5)%Q) /\
   (Regression = Unchanged <->
      (-5 <= (300 - 200) / 200 * 100)%Q /\ ((300 - 200) / 200 * 100 <= 5)%Q)).
Proof.
  split; [reflexivity|].
  apply (proj1 classification_by_threshold (measured "A" 300) (measured "A" 200)).
  reflexivity.
Defined.



Lemma clamp_range (y : Q) :
  (0 <= Spec.clamp 0 100 y)%Q /\ (Spec.clamp 0 100 y <= 100)%Q.
Proof.
  unfold Spec.clamp.
  destruct (decide (y < 0)%Q); [split; lra|].
  destruct (decide (100 < y)%Q); split; lra.
Qed.




Lemma compare_one_positive (t : Q) (base : list bench) (cb : bench)
    (r : Spec.ComparisonResult) :
  Spec.compare_one t base cb = Some r ->
  (0 < Spec.r_current_ns r)%Q /\ (0 < Spec.r_baseline_ns r)%Q.
Proof.
  unfold Spec.compare_one.
  destruct (name cb) as [n|]; simpl; [|done].
  destruct (Spec.lookup base n) as [bb|]; simpl; [|done].
  destruct (Spec.ns cb) as [c|]; simpl; [|done].
  destruct (Spec.ns bb) as [b|]; simpl; [|done].
  destruct (decide (0 < c)%Q); [|done].
  destruct (decide (0 < b)%Q); [|done].
  by intros [= <-].
Qed.

Lemma compare_positive (t : Q) (cur base : list bench) :
  Forall (fun r => (0 < Spec.r_current_ns r)%Q /\ (0 < Spec.r_baseline_ns r)%Q)
         (Spec.compare t cur base).
Proof.
  induction cur as [|cb cur IH]; [constructor|].
  rewrite compare_cons. apply Forall_app. split; [|done].
  destruct (Spec.compare_one t base cb) as [r|] eqn:E; simpl; [|constructor].
  apply compare_one_positive in E. constructor; [exact E | constructor].
Qed.

Lemma create_summary_report_Ok (current_data baseline_data : data) (s : summary) :
  create_summary_report current_data baseline_data = Ok s ->
  exists lookup st,
    baseline_lookup (get_benchmarks baseline_data) = Ok lookup /\
    summary_loop lookup (0, 0)%Z (get_benchmarks current_data) = Ok st /\
    regressions s = fst st /\ improvements s = snd st /\
    total_benchmarks s = Z.of_nat (length (get_benchmarks current_data)) /\
    sizes s = [regressions s; improvements s;
               (total_benchmarks s - regressions s - improvements s)%Z].
Proof.
  unfold create_summary_report. rewrite bind_Ok. intros (lookup & Hl & H).
  apply bind_Ok in H as (st & Hst & H).
  apply bind_Ok in H as (u & _ & H).
  apply bind_Ok in H as (cs & _ & H).
  apply bind_Ok in H as (bs & _ & [= <-]).
  exists lookup, st. by repeat split.
Qed.

(** C4.  In the summary, regressions and improvements count the comparison
    results (matched pairs with both timings positive) of that class, while
    the third pie-chart size is len(current_benchmarks) - regressions -
    improvements: it is taken from the number of current entries, not from
    the number of results; the rows of the comparison chart are those
    results, one row each.  For current [A, B] against baseline [A] there is
    exactly one result and one chart row, and the no-change size is 2. *)
Theorem unchanged_uses_total_count :
  (forall (current_data baseline_data : data) (s : summary),
      create_summary_report current_data baseline_data = Ok s ->
      let results :=
        Spec.compare 5 (get_benchmarks current_data) (get_benchmarks baseline_data) in
      Forall (fun r => (0 < Spec.r_current_ns r)%Q /\ (0 < Spec.r_baseline_ns r)%Q)
             results /\
      regressions s = Z.of_nat (Spec.tally Regression results) /\
      improvements s = Z.of_nat (Spec.tally Improvement results) /\
      total_benchmarks s = Z.of_nat (length (get_benchmarks current_data)) /\
      sizes s = [regressions s; improvements s;
                 (Z.of_nat (length (get_benchmarks current_data))
                  - regressions s - improvements s)%Z] /\
      forall rows,
        create_benchmark_comparison_chart current_data baseline_data = Ok rows ->
        Forall2 row_matches rows results) /\
  (exists s rows,
      create_summary_report
        (report [measured "A" 100; measured "B" 100]) (report [measured "A" 100]) = Ok s /\
      create_benchmark_comparison_chart
        (report [measured "A" 100; measured "B" 100]) (report [measured "A" 100]) = Ok rows /\
      length rows = 1 /\
      length (Spec.compare 5 [measured "A" 100; measured "B" 100] [measured "A" 100]) = 1 /\
      sizes s = [0; 0; 2]%Z).
Proof.
  split.
  - intros cur base s H results.
    apply create_summary_report_Ok in H as (lookup & st & Hl & Hst & Hr & Hi & Ht & Hs).
    apply (summary_loop_refines (get_benchmarks base)) in Hst as [Hfst Hsnd];
      [|by apply baseline_lookup_spec].
    split; [apply compare_positive|].
    rewrite Hs, Ht, Hr, Hi, Hfst, Hsnd. simpl. repeat split.
    intros rows Hrows. unfold create_benchmark_comparison_chart in Hrows.
    apply bind_Ok in Hrows as (lookup' & Hl' & Hrows).
    apply (chart_loop_refines (get_benchmarks base)) in Hrows; [done|].
    by apply baseline_lookup_spec.
  - do 2 eexists. split; [vm_compute; reflexivity|].
    split; [vm_compute; reflexivity|]. by repeat split.
Qed.

(** The summary of three current entries against two baseline entries. *)
Lemma unchanged_uses_total_count_witness :
  exists s,
    create_summary_report
      (report [measured "A" 300; measured "B" 100; measured "C" 0])
      (report [measured "A" 200; measured "C" 10]) = Ok s /\
    regressions s =
      Z.of_nat (Spec.tally Regression
                  (Spec.compare 5 [measured "A" 300; measured "B" 100; measured "C" 0]
                                  [measured "A" 200; measured "C" 10])) /\
    sizes s = [regressions s; improvements s;
               (3 - regressions s - improvements s)%Z].
Proof.
  eexists. split; [vm_compute; reflexivity|].
  pose proof (proj1 unchanged_uses_total_count
                (report [measured "A" 300; measured "B" 100; measured "C" 0])
                (report [measured "A" 200; measured "C" 10]) _ eq_refl)
    as (_ & Hr & _ & _ & Hs & _).
  split; [exact Hr | exact Hs].
Defined.

(** C5, as stated, fails: a name that occurs twice in the current report is
    matched twice, so two rows are emitted against a one-entry baseline. *)
Lemma duplicate_current_names_exceed_baseline :
  exists rows,
    create_benchmark_comparison_chart
      (report [measured "A" 100; measured "A" 100]) (report [measured "A" 100])
      = Ok rows /\
    length rows = 2 /\
    ~ (length rows <= Nat.min (length [measured "A" 100; measured "A" 100])
                              (length [measured "A" 100])).
Proof.
  eexists. split; [vm_compute; reflexivity|]. split; [done|]. simpl. lia.
Qed.

(** C5, amended.  The rows are emitted in the order of the current report:
    they come, one each and in order, from a subsequence of its entries.
    Their number is at most the number of current entries, and at most
    min(|current|, |baseline|) when no name occurs twice in the current
    report. *)
Theorem results_follow_current_order
    (current_data baseline_data : data) (rows : list row) :
  create_benchmark_comparison_chart current_data baseline_data = Ok rows ->
  (exists kept,
      sublist kept (get_benchmarks current_data) /\ Forall2 row_of rows kept) /\
  length rows <= length (get_benchmarks current_data) /\
  (NoDup (name <$> get_benchmarks current_data) ->
   length rows <= Nat.min (length (get_benchmarks current_data))
                          (length (get_benchmarks baseline_data))).
Proof.
  unfold create_benchmark_comparison_chart. rewrite bind_Ok.
  intros (lookup & Hl & H).
  apply chart_loop_sublist in H as (kept & Hsub & Hrows & Hin).
  pose proof (Forall2_length _ _ _ Hrows) as Hlen.
  pose proof (sublist_length _ _ Hsub) as Hle.
  split; [by exists kept|]. split; [lia|].
  intros Hnd. apply Nat.min_glb; [lia|].
  assert (length kept <= size lookup) as Hk.
  { apply distinct_names_size; [|done].
    eapply sublist_NoDup; [exact Hnd | by apply fmap_sublist]. }
  apply build_lookup_size in Hl. rewrite map_size_empty in Hl. lia.
Qed.

(** Three distinct current names against a baseline of two. *)
Lemma results_follow_current_order_witness :
  exists rows,
    create_benchmark_comparison_chart
      (report [measured "BenchmarkA" 100; measured "B" 100; measured "C" 7])
      (report [measured "C" 5; measured "BenchmarkA" 200]) = Ok rows /\
    (exists kept,
        sublist kept [measured "BenchmarkA" 100; measured "B" 100; measured "C" 7] /\
        Forall2 row_of rows kept) /\
    length rows <= 3 /\
    (NoDup (name <$> [measured "BenchmarkA" 100; measured "B" 100; measured "C" 7]) ->
     length rows <= Nat.min 3 2).
Proof.
  eexists. split; [vm_compute; reflexivity|].
  apply (results_follow_current_order
           (report [measured "BenchmarkA" 100; measured "B" 100; measured "C" 7])
           (report [measured "C" 5; measured "BenchmarkA" 200])).
  vm_compute. reflexivity.
Defined.

(** C6, as stated, fails: an entry without a name raises [KeyError] and a
    matched entry whose ns_per_op is a string raises [TypeError]; either
    exception escapes from both loops although the other entry is sound. *)
Lemma malformed_entry_aborts :
  let nameless := {| name := None; ns_per_op := Some (PyNum 100); allocs_per_op := None |} in
  let textual := {| name := Some "A"; ns_per_op := Some (PyStr "fast"); allocs_per_op := None |} in
  create_summary_report (report [nameless; measured "B" 100]) (report [measured "B" 100])
    = Raise KeyError /\
  create_benchmark_comparison_chart
    (report [nameless; measured "B" 100]) (report [measured "B" 100])
    = Raise KeyError /\
  create_summary_report
    (report [textual; measured "B" 100]) (report [measured "A" 100; measured "B" 100])
    = Raise TypeError /\
  create_benchmark_comparison_chart
    (report [textual; measured "B" 100]) (report [measured "A" 100; measured "B" 100])
    = Raise TypeError.
Proof. repeat split; vm_compute; reflexivity. Qed.

Lemma count_step (st : Z * Z) (c : option (Q * classification)) :
  count st c = st \/
  count st c = (fst st + 1, snd st)%Z \/
  count st c = (fst st, snd st + 1)%Z.
Proof. destruct c as [[change []]|]; simpl; auto. Qed.

Lemma summary_body_step (lookup : gmap string bench) (st st' : Z * Z) (cb : bench) :
  summary_body lookup st cb = Ok st' ->
  st' = st \/ st' = (fst st + 1, snd st)%Z \/ st' = (fst st, snd st + 1)%Z.
Proof.
  unfold summary_body. rewrite bind_Ok. intros (n & _ & H).
  destruct (lookup !! n) as [bb|].
  - apply bind_Ok in H as (c & _ & [= <-]). apply count_step.
  - injection H as <-. by left.
Qed.

Lemma summary_loop_bounds (lookup : gmap string bench) (cur : list bench)
    (st st' : Z * Z) :
  summary_loop lookup st cur = Ok st' ->
  (fst st <= fst st')%Z /\ (snd st <= snd st')%Z /\
  (fst st' + snd st' <= fst st + snd st + Z.of_nat (length cur))%Z.
Proof.
  revert st. induction cur as [|cb cur IH]; intros st H.
  - simpl in H. injection H as <-. simpl. lia.
  - simpl in H. apply bind_Ok in H as (st1 & H1 & H).
    apply IH in H. apply summary_body_step in H1.
    rewrite length_cons, Nat2Z.inj_succ.
    destruct H1 as [-> | [-> | ->]]; simpl in *; lia.
Qed.

Lemma pair_without_timing (nm : string) (cb bb : bench) :
  numeric cb -> numeric bb ->
  ns_per_op cb = None \/ ns_per_op bb = None ->
  compare_pair cb bb = Ok None /\ chart_pair nm cb bb = Ok None.
Proof.
  intros [c Hc] [b Hb] Hmiss. unfold compare_pair, chart_pair.
  rewrite (both_positive_numeric _ _ b c Hb Hc).
  assert (Qltb 0 b && Qltb 0 c = false) as ->; [|done].
  unfold get_ns_per_op in Hc, Hb.
  destruct Hmiss as [E|E]; rewrite E in *; simpl in *.
  - injection Hc as <-. by rewrite andb_false_r.
  - by injection Hb as <-.
Qed.

Lemma chart_loop_skip (lookup : gmap string bench) (l1 l2 : list bench) (b : bench) :
  chart_body lookup b = Ok None ->
  chart_loop lookup (l1 ++ b :: l2) = chart_loop lookup (l1 ++ l2).
Proof.
  intros Hb. induction l1 as [|a l1 IH]; simpl.
  - rewrite Hb. cbn [bind]. by destruct (chart_loop lookup l2).
  - by rewrite IH.
Qed.

Lemma summary_loop_skip (lookup : gmap string bench) (l1 l2 : list bench)
    (b : bench) (st : Z * Z) :
  (forall st', summary_body lookup st' b = Ok st') ->
  summary_loop lookup st (l1 ++ b :: l2) = summary_loop lookup st (l1 ++ l2).
Proof.
  intros Hb. revert st. induction l1 as [|a l1 IH]; intros st; simpl.
  - by rewrite Hb.
  - destruct (summary_body lookup st a) as [st'|]; [|done]. cbn [bind]. apply IH.
Qed.

Lemma ns_values_skip (l1 l2 : list bench) (b : bench) :
  py_gt (get_ns_per_op b) 0 = Ok false ->
  ns_values (l1 ++ b :: l2) = ns_values (l1 ++ l2).
Proof.
  intros Hb. induction l1 as [|a l1 IH]; simpl.
  - rewrite Hb. cbn [bind]. by destruct (ns_values l2).
  - by rewrite IH.
Qed.

(** The score is a function of the positive timings alone. *)
Lemma score_from_values (l1 l2 : list bench) :
  ns_values l1 = ns_values l2 ->
  calculate_performance_score (report l1) = calculate_performance_score (report l2).
Proof.
  intros H. unfold calculate_performance_score.
  change (get_benchmarks (report l1)) with l1.
  change (get_benchmarks (report l2)) with l2.
  destruct l1 as [|a1 l1], l2 as [|a2 l2]; [done| | |by rewrite H].
  - rewrite <- H. done.
  - rewrite H. done.
Qed.

(** A current entry that has a name and no ns_per_op is passed over by both
    loop bodies, when the baseline entry of its name, if any, is numeric. *)
Lemma untimed_entry_is_passed_over (base : list bench) (lookup : gmap string bench)
    (e : bench) (n : string) :
  baseline_lookup base = Ok lookup ->
  name e = Some n -> ns_per_op e = None ->
  (forall bb, Spec.lookup base n = Some bb -> numeric bb) ->
  chart_body lookup e = Ok None /\
  forall st, summary_body lookup st e = Ok st.
Proof.
  intros Hl Hn He Hbase.
  assert (numeric e) as Hnum.
  { exists 0%Q. unfold get_ns_per_op. by rewrite He. }
  unfold chart_body, summary_body, getitem_name. rewrite Hn. cbn [bind].
  destruct (lookup !! n) as [bb|] eqn:Ebb; [|done].
  rewrite (baseline_lookup_spec _ _ Hl) in Ebb.
  destruct (pair_without_timing n e bb Hnum (Hbase _ Ebb)) as [-> ->]; [by left|].
  done.
Qed.

Lemma unnamed_entry_raises (current_data baseline_data : data) :
  ~ Forall named (get_benchmarks current_data ++ get_benchmarks baseline_data) ->
  (exists e, create_summary_report current_data baseline_data = Raise e) /\
  (exists e, create_benchmark_comparison_chart current_data baseline_data = Raise e).
Proof.
  intros Hnamed. rewrite Forall_app in Hnamed.
  unfold create_summary_report, create_benchmark_comparison_chart, baseline_lookup.
  destruct (decide (Forall named (get_benchmarks baseline_data))) as [Hb|Hb].
  - destruct (build_lookup_named _ ∅ Hb) as [lookup Hl].
    assert (~ Forall named (get_benchmarks current_data)) as Hc by tauto.
    rewrite Hl. cbn [bind]. split.
    + destruct (summary_loop_unnamed lookup _ (0, 0)%Z Hc) as [e ->]. by exists e.
    + by apply chart_loop_unnamed.
  - rewrite (build_lookup_unnamed _ ∅ Hb). split; by exists KeyError.
Qed.

Lemma non_numeric_entry_raises (current_data baseline_data : data) :
  ~ Forall numeric (get_benchmarks current_data ++ get_benchmarks baseline_data) ->
  exists e, create_summary_report current_data baseline_data = Raise e.
Proof.
  intros Hnum.
  destruct (create_summary_report current_data baseline_data) as [s|e] eqn:E;
    [|by exists e].
  exfalso. apply Hnum. unfold create_summary_report in E.
  apply bind_Ok in E as (lookup & _ & E). apply bind_Ok in E as (st & _ & E).
  apply bind_Ok in E as (u & _ & E).
  apply bind_Ok in E as (cs & Hcs & E). apply bind_Ok in E as (bs & Hbs & _).
  apply Forall_app. split; by eapply score_Ok_numeric.
Qed.

(** The pie chart accepts its sizes once the current report has an entry. *)
Lemma ax1_pie_nonempty (r i : Z) (n : nat) :
  (0 <= r)%Z -> (0 <= i)%Z -> (r + i <= Z.of_nat n)%Z -> n <> 0 ->
  ax1_pie [r; i; (Z.of_nat n - r - i)%Z] = Ok tt.
Proof.
  intros Hr Hi Hle Hn. unfold ax1_pie. cbn [forallb].
  destruct (Z.eqb_spec 0 r) as [<-|]; [|reflexivity].
  destruct (Z.eqb_spec 0 i) as [<-|]; [|reflexivity].
  destruct (Z.eqb_spec 0 (Z.of_nat n - 0 - 0)) as [E|]; [|reflexivity]. lia.
Qed.

(** C6, amended.  What is excluded without aborting is a current entry that
    has a name and lacks ns_per_op: it reads as 0 and its pair is skipped.
    Provided the baseline entry of its name, if there is one, has a numeric
    or absent ns_per_op, the comparison chart returns the same result with
    the entry as without it, and a summary that is produced without the
    entry is produced with it, with the same two counters and scores and one
    more benchmark in total.  An entry without a name, in either report,
    makes both functions end in an exception, and a non-numeric ns_per_op
    anywhere makes the summary end in an exception. *)
Theorem entries_without_timing_are_skipped :
  (forall (l1 l2 base : list bench) (e : bench) (n : string),
      name e = Some n -> ns_per_op e = None ->
      (forall bb, Spec.lookup base n = Some bb -> numeric bb) ->
      create_benchmark_comparison_chart (report (l1 ++ e :: l2)) (report base) =
      create_benchmark_comparison_chart (report (l1 ++ l2)) (report base) /\
      forall s,
        create_summary_report (report (l1 ++ l2)) (report base) = Ok s ->
        exists s',
          create_summary_report (report (l1 ++ e :: l2)) (report base) = Ok s' /\
          regressions s' = regressions s /\
          improvements s' = improvements s /\
          total_benchmarks s' = (total_benchmarks s + 1)%Z /\
          current_score s' = current_score s /\
          baseline_score s' = baseline_score s) /\
  (forall current_data baseline_data : data,
      ~ Forall named (get_benchmarks current_data ++ get_benchmarks baseline_data) ->
      (exists e, create_summary_report current_data baseline_data = Raise e) /\
      (exists e, create_benchmark_comparison_chart current_data baseline_data = Raise e)) /\
  (forall current_data baseline_data : data,
      ~ Forall numeric (get_benchmarks current_data ++ get_benchmarks baseline_data) ->
      exists e, create_summary_report current_data baseline_data = Raise e).
Proof.
  split; [|split; [apply unnamed_entry_raises | apply non_numeric_entry_raises]].
  intros l1 l2 base e n Hn He Hbase. split.
  - unfold create_benchmark_comparison_chart.
    change (get_benchmarks (report base)) with base.
    change (get_benchmarks (report (l1 ++ e :: l2))) with (l1 ++ e :: l2).
    change (get_benchmarks (report (l1 ++ l2))) with (l1 ++ l2).
    destruct (baseline_lookup base) as [lookup|x] eqn:El; [|done]. cbn [bind].
    apply chart_loop_skip.
    by destruct (untimed_entry_is_passed_over base lookup e n El Hn He Hbase).
  - intros s Hs. unfold create_summary_report in Hs |- *.
    change (get_benchmarks (report base)) with base in *.
    change (get_benchmarks (report (l1 ++ e :: l2))) with (l1 ++ e :: l2).
    change (get_benchmarks (report (l1 ++ l2))) with (l1 ++ l2) in Hs.
    apply bind_Ok in Hs as (lookup & Hl & Hs). rewrite Hl. cbn [bind].
    apply bind_Ok in Hs as (st & Hst & Hs).
    destruct (untimed_entry_is_passed_over base lookup e n Hl Hn He Hbase)
      as [_ Hskip].
    rewrite (summary_loop_skip lookup l1 l2 e _ Hskip), Hst. cbn [bind].
    apply bind_Ok in Hs as (u & _ & Hs).
    apply bind_Ok in Hs as (cs & Hcs & Hs).
    apply bind_Ok in Hs as (bs & Hbs & [= <-]).
    apply summary_loop_bounds in Hst as (H1 & H2 & H3). simpl in H1, H2, H3.
    rewrite ax1_pie_nonempty;
      [| lia | lia | rewrite length_app, length_cons in *; lia
       | rewrite length_app, length_cons; lia ].
    cbn [bind].
    assert (calculate_performance_score (report (l1 ++ e :: l2)) = Ok cs) as ->.
    { rewrite <- Hcs. apply score_from_values, ns_values_skip.
      unfold get_ns_per_op. by rewrite He. }
    cbn [bind]. rewrite Hbs. cbn [bind]. eexists. split; [reflexivity|].
    simpl. repeat split. rewrite !length_app, length_cons. lia.
Qed.

(** A current entry without ns_per_op next to a sound one. *)
Lemma entries_without_timing_are_skipped_witness :
  name (untimed "A") = Some "A" /\ ns_per_op (untimed "A") = None /\
  (forall bb, Spec.lookup [measured "A" 100; measured "B" 100] "A" = Some bb ->
              numeric bb) /\
  create_benchmark_comparison_chart
    (report ([] ++ untimed "A" :: [measured "B" 120]))
    (report [measured "A" 100; measured "B" 100]) =
  create_benchmark_comparison_chart
    (report ([] ++ [measured "B" 120]))
    (report [measured "A" 100; measured "B" 100]) /\
  exists s',
    create_summary_report
      (report ([] ++ untimed "A" :: [measured "B" 120]))
      (report [measured "A" 100; measured "B" 100]) = Ok s' /\
    regressions s' = 1%Z /\ improvements s' = 0%Z /\ total_benchmarks s' = 2%Z.
Proof.
  assert (forall bb, Spec.lookup [measured "A" 100; measured "B" 100] "A" = Some bb ->
                     numeric bb) as Hbase.
  { intros bb [= <-]. eexists. reflexivity. }
  split; [reflexivity|]. split; [reflexivity|]. split; [exact Hbase|].
  destruct (proj1 entries_without_timing_are_skipped
              [] [measured "B" 120] [measured "A" 100; measured "B" 100]
              (untimed "A") "A" eq_refl eq_refl Hbase) as [Hchart Hsum].
  split; [exact Hchart|].
  destruct (Hsum _ eq_refl) as (s' & Hs' & Hr & Hi & Ht & _).
  exists s'. split; [exact Hs'|]. split; [exact Hr|]. split; [exact Hi | exact Ht].
Defined.



Lemma spec_lookup_last (base : list bench) (n : string) (bb : bench) :
  Spec.lookup base n = Some bb <->
  exists before after,
    base = before ++ bb :: after /\
    name bb = Some n /\
    Forall (fun b => name b <> Some n) after.
Proof.
  unfold Spec.lookup. rewrite find_rev_Some.
  split; intros (l1 & l2 & -> & Hn & Hafter); exists l1, l2.
  - split; [done|]. split; [by apply bool_decide_eq_true in Hn|].
    eapply Forall_impl; [exact Hafter|]. intros b Hb. simpl in Hb.
    by apply bool_decide_eq_false in Hb.
  - split; [done|]. split; [by apply bool_decide_eq_true|].
    eapply Forall_impl; [exact Hafter|]. intros b Hb. simpl.
    by apply bool_decide_eq_false.
Qed.

Lemma spec_lookup_absent (base : list bench) (n : string) :
  Spec.lookup base n = None <-> Forall (fun b => name b <> Some n) base.
Proof.
  unfold Spec.lookup. rewrite find_rev_None.
  split; intros H; (eapply Forall_impl; [exact H|]); intros b Hb; simpl in *.
  - by apply bool_decide_eq_false in Hb.
  - by apply bool_decide_eq_false.
Qed.

(** C8.  A current entry is paired with the baseline entry that the lookup
    holds under the very same string: that entry carries exactly the name
    asked for and is the last one of that name in the baseline; when no
    baseline entry has that name the current entry is left unpaired.
    Repeated names in the baseline do not raise.  Names that differ in case
    or by a trailing blank do not match. *)
Theorem baseline_match_is_exact_and_last :
  (forall base : list bench,
      Forall named base ->
      exists lookup,
        baseline_lookup base = Ok lookup /\
        forall n : string,
          (forall bb,
              lookup !! n = Some bb <->
              exists before after,
                base = before ++ bb :: after /\
                name bb = Some n /\
                Forall (fun b => name b <> Some n) after) /\
          (lookup !! n = None <-> Forall (fun b => name b <> Some n) base) /\
          (forall cb st,
              name cb = Some n ->
              summary_body lookup st cb =
                match lookup !! n with
                | Some bb => c <- compare_pair cb bb ;; Ok (count st c)
                | None => Ok st
                end /\
              chart_body lookup cb =
                match lookup !! n with
                | Some bb => chart_pair n cb bb
                | None => Ok None
                end)) /\
  create_benchmark_comparison_chart
    (report [measured "X" 100]) (report [measured "x" 100; measured "X " 100])
    = Ok [] /\
  (exists x,
      create_benchmark_comparison_chart
        (report [measured "A" 300])
        (report [measured "A" 100; measured "B" 50; measured "A" 200])
      = Ok [x] /\
      baseline_value x = PyNum 200).
Proof.
  split; [|split].
  - intros base Hnamed.
    destruct (build_lookup_named base ∅ Hnamed) as [lookup Hl].
    exists lookup. split; [done|]. intros n. split; [|split].
    + intros bb. rewrite (baseline_lookup_spec _ _ Hl). apply spec_lookup_last.
    + rewrite (baseline_lookup_spec _ _ Hl). apply spec_lookup_absent.
    + intros cb st Hn. unfold summary_body, chart_body, getitem_name.
      by rewrite Hn.
  - vm_compute. reflexivity.
  - eexists. split; [vm_compute; reflexivity | reflexivity].
Qed.

(** A baseline in which the name A occurs twice. *)
Lemma baseline_match_is_exact_and_last_witness :
  Forall named [measured "A" 100; measured "B" 50; measured "A" 200] /\
  exists lookup,
    baseline_lookup [measured "A" 100; measured "B" 50; measured "A" 200] = Ok lookup /\
    lookup !! "A" = Some (measured "A" 200) /\
    lookup !! "a" = None.
Proof.
  assert (Forall named [measured "A" 100; measured "B" 50; measured "A" 200]) as Hnamed.
  { repeat (constructor; [eexists; reflexivity|]). constructor. }
  split; [exact Hnamed|].
  destruct (proj1 baseline_match_is_exact_and_last _ Hnamed) as (lookup & Hl & Hspec).
  exists lookup. split; [exact Hl|]. split.
  - apply (proj1 (Hspec "A")).
    exists [measured "A" 100; measured "B" 50], []. split; [reflexivity|].
    split; [reflexivity | constructor].
  - apply (proj1 (proj2 (Hspec "a"))).
    repeat (constructor; [discriminate|]). constructor.
Defined.

(** C9, as stated, fails in one direction: the value that signals a failed
    load is [None], and a file holding the well-formed JSON document [null]
    loads to that same value although nothing was raised. *)
Lemma null_document_reads_as_failure :
  load_performance_data null_documents "baseline.json" = LoadedNone /\
  ~ (exists e, null_documents "baseline.json" = Raise e).
Proof.
  split; [reflexivity|]. intros [e H]. discriminate H.
Qed.

(** C9, amended.  [load_performance_data] raises nothing: when opening or
    parsing raises it returns [None], and otherwise it returns the parsed
    document unchanged, its measurements in document order.  [None] is
    therefore returned exactly when the load raised or the document itself
    is [null]. *)
Theorem load_returns_document_or_none
    (open_and_json_load : string -> res loaded) (filename : string) :
  (forall e, open_and_json_load filename = Raise e ->
             load_performance_data open_and_json_load filename = LoadedNone) /\
  (forall document, open_and_json_load filename = Ok document ->
             load_performance_data open_and_json_load filename = document) /\
  (load_performance_data open_and_json_load filename = LoadedNone <->
   (exists e, open_and_json_load filename = Raise e) \/
   open_and_json_load filename = Ok LoadedNone).
Proof.
  unfold load_performance_data.
  destruct (open_and_json_load filename) as [document|e]; (split; [|split]).
  - intros e H. discriminate H.
  - by intros document' [= <-].
  - split.
    + intros ->. by right.
    + intros [[e H] | H]; [discriminate H | by injection H].
  - done.
  - intros document H. discriminate H.
  - split; [|done]. intros _. left. by exists e.
Qed.

(** A missing file and a readable report. *)
Lemma load_returns_document_or_none_witness :
  one_report "missing.json" = Raise OSError /\
  load_performance_data one_report "missing.json" = LoadedNone /\
  one_report "current.json"
    = Ok (LoadedDict (report [measured "A" 100; measured "B" 200])) /\
  load_performance_data one_report "current.json"
    = LoadedDict (report [measured "A" 100; measured "B" 200]).
Proof.
  split; [reflexivity|]. split.
  - exact (proj1 (load_returns_document_or_none one_report "missing.json")
             OSError eq_refl).
  - split; [reflexivity|].
    exact (proj1 (proj2 (load_returns_document_or_none one_report "current.json"))
             _ eq_refl).
Defined.

(** C10.  One iteration of the summary loop leaves the counters alone or
    adds one to exactly one of them.  Hence, whenever the summary is
    produced, both counters are non-negative, their sum is at most the
    number of current entries, and the no-change size of the pie chart,
    total - regressions - improvements, is non-negative. *)
Theorem counters_bounded_by_current :
  (forall (lookup : gmap string bench) (st st' : Z * Z) (cb : bench),
      summary_body lookup st cb = Ok st' ->
      st' = st \/ st' = (fst st + 1, snd st)%Z \/ st' = (fst st, snd st + 1)%Z) /\
  (forall (current_data baseline_data : data) (s : summary),
      create_summary_report current_data baseline_data = Ok s ->
      (0 <= regressions s)%Z /\ (0 <= improvements s)%Z /\
      (regressions s + improvements s
         <= Z.of_nat (length (get_benchmarks current_data)))%Z /\
      exists no_change,
        sizes s = [regressions s; improvements s; no_change] /\
        no_change = (Z.of_nat (length (get_benchmarks current_data))
                     - regressions s - improvements s)%Z /\
        (0 <= no_change)%Z).
Proof.
  split; [apply summary_body_step|].
  intros cur base s H.
  apply create_summary_report_Ok in H as (lookup & st & _ & Hst & Hr & Hi & Ht & Hs).
  apply summary_loop_bounds in Hst as (H1 & H2 & H3). simpl in *.
  rewrite Hr, Hi. repeat split; try lia.
  eexists. split; [by rewrite Hs, Ht, Hr, Hi|]. split; [done|]. lia.
Qed.

(** One regression and one improvement among three current entries. *)
Lemma counters_bounded_by_current_witness :
  exists s,
    create_summary_report
      (report [measured "A" 300; measured "B" 100; measured "C" 0])
      (report [measured "A" 200; measured "B" 400]) = Ok s /\
    (0 <= regressions s)%Z /\ (0 <= improvements s)%Z /\
    (regressions s + improvements s <= 3)%Z /\
    exists no_change,
      sizes s = [regressions s; improvements s; no_change] /\
      no_change = (3 - regressions s - improvements s)%Z /\
      (0 <= no_change)%Z.
Proof.
  eexists. split; [vm_compute; reflexivity|].
  apply (proj2 counters_bounded_by_current
           (report [measured "A" 300; measured "B" 100; measured "C" 0])
           (report [measured "A" 200; measured "B" 400])).
  vm_compute. reflexivity.
Defined.

(** * Further properties of the script *)

(** ** The chart and the summary on the same reports *)

(** The two loop bodies treat a pair alike: they skip together, and a row
    carries the change with the opposite sign. *)
Lemma compare_pair_chart_pair (nm : string) (cb bb : bench)
    (c : option (Q * classification)) :
  compare_pair cb bb = Ok c ->
  exists o, chart_pair nm cb bb = Ok o /\
    match c, o with
    | None, None => True
    | Some (change, cl), Some x =>
        cl = classify change /\ (improvement x == - change)%Q
    | _, _ => False
    end.
Proof.
  unfold compare_pair, chart_pair. rewrite bind_Ok. intros ([] & Hpos & H).
  - rewrite Hpos. cbn [bind].
    destruct (both_positive_true _ _ Hpos) as (b & q & Hb & Hq & Hb0 & _).
    rewrite (change_pct_numeric _ _ q b Hq Hb Hb0) in H. cbn [bind] in H.
    injection H as <-.
    rewrite (improvement_pct_numeric _ _ q b Hq Hb Hb0). cbn [bind].
    eexists. split; [done|]. split; [done|]. simpl.
    field. intros E. rewrite E in Hb0. by apply Qlt_irrefl in Hb0.
  - rewrite Hpos. cbn [bind]. injection H as <-. by exists None.
Qed.

Lemma count_by_row (st : Z * Z) (change : Q) (x : row) :
  (improvement x == - change)%Q ->
  count st (Some (change, classify change)) =
  ((fst st + Z.of_nat (length (filter regressed [x])))%Z,
   (snd st + Z.of_nat (length (filter improved [x])))%Z).
Proof.
  intros E. rewrite !filter_cons, !filter_nil.
  destruct (classify_spec change) as (Hr & Hi & Hu).
  destruct (classify change) eqn:Ec; simpl.
  - assert (5 < change)%Q as H by by apply Hr.
    rewrite decide_True by (unfold regressed; lra).
    rewrite decide_False by (unfold improved; lra).
    simpl. f_equal; lia.
  - assert (change < -5)%Q as H by by apply Hi.
    rewrite decide_False by (unfold regressed; lra).
    rewrite decide_True by (unfold improved; lra).
    simpl. f_equal; lia.
  - assert ((-5 <= change)%Q /\ (change <= 5)%Q) as [H1 H2] by by apply Hu.
    rewrite decide_False by (unfold regressed; lra).
    rewrite decide_False by (unfold improved; lra).
    simpl. destruct st. simpl. f_equal; lia.
Qed.

Lemma summary_loop_chart_loop (lookup : gmap string bench) (cur : list bench)
    (st st' : Z * Z) :
  summary_loop lookup st cur = Ok st' ->
  exists rows,
    chart_loop lookup cur = Ok rows /\
    fst st' = (fst st + Z.of_nat (length (filter regressed rows)))%Z /\
    snd st' = (snd st + Z.of_nat (length (filter improved rows)))%Z.
Proof.
  revert st. induction cur as [|cb cur IH]; intros st H.
  - simpl in H. injection H as <-. exists []. simpl. repeat split; lia.
  - simpl in H. apply bind_Ok in H as (st1 & H1 & H).
    destruct (IH _ H) as (rows & Hrows & Hr & Hi). simpl. rewrite Hrows.
    unfold summary_body in H1. apply bind_Ok in H1 as (n & Hn & H1).
    unfold chart_body. rewrite Hn. cbn [bind].
    destruct (lookup !! n) as [bb|].
    + apply bind_Ok in H1 as (c & Hc & [= <-]).
      destruct (compare_pair_chart_pair n cb bb c Hc) as (o & -> & Hrel).
      cbn [bind]. destruct c as [[change cl]|], o as [x|]; try done.
      * destruct Hrel as [-> Hx]. exists (x :: rows). split; [done|].
        rewrite (count_by_row st change x Hx) in Hr, Hi. simpl in Hr, Hi.
        change (x :: rows) with ([x] ++ rows).
        rewrite !filter_app, !length_app. lia.
      * exists rows. by repeat split.
    + injection H1 as <-. cbn [bind]. exists rows. by repeat split.
Qed.

(** X1.  Whenever the summary and the comparison chart are both produced
    for two reports, the counters of the summary count the rows of the
    chart: regressions are the rows whose improvement is below -5,
    improvements the rows whose improvement is above 5. *)
Theorem summary_counts_chart_rows
    (current_data baseline_data : data) (s : summary) (rows : list row) :
  create_summary_report current_data baseline_data = Ok s ->
  create_benchmark_comparison_chart current_data baseline_data = Ok rows ->
  regressions s = Z.of_nat (length (filter regressed rows)) /\
  improvements s = Z.of_nat (length (filter improved rows)).
Proof.
  intros H Hchart.
  apply create_summary_report_Ok in H as (lookup & st & Hl & Hst & Hr & Hi & _).
  apply summary_loop_chart_loop in Hst as (rows' & Hrows & Hfst & Hsnd).
  unfold create_benchmark_comparison_chart in Hchart. rewrite Hl in Hchart.
  cbn [bind] in Hchart. rewrite Hrows in Hchart. injection Hchart as <-.
  rewrite Hr, Hi, Hfst, Hsnd. simpl. split; lia.
Qed.

(** Two regressions, one improvement and one unchanged benchmark. *)
Lemma summary_counts_chart_rows_witness :
  exists s rows,
    create_summary_report
      (report [measured "A" 300; measured "B" 100; measured "C" 50; measured "D" 9])
      (report [measured "A" 200; measured "B" 400; measured "C" 50; measured "D" 3])
      = Ok s /\
    create_benchmark_comparison_chart
      (report [measured "A" 300; measured "B" 100; measured "C" 50; measured "D" 9])
      (report [measured "A" 200; measured "B" 400; measured "C" 50; measured "D" 3])
      = Ok rows /\
    regressions s = Z.of_nat (length (filter regressed rows)) /\
    improvements s = Z.of_nat (length (filter improved rows)) /\
    regressions s = 2%Z /\ improvements s = 1%Z.
Proof.
  do 2 eexists.
  split; [vm_compute; reflexivity|]. split; [vm_compute; reflexivity|].
  destruct (summary_counts_chart_rows
              (report [measured "A" 300; measured "B" 100; measured "C" 50; measured "D" 9])
              (report [measured "A" 200; measured "B" 400; measured "C" 50; measured "D" 3])
              _ _ eq_refl eq_refl) as (Hr & Hi).
  repeat split; done.
Defined.

(** ** A report compared with itself *)

Lemma nodup_lookup_self (l : list bench) (b : bench) (n : string) :
  NoDup (name <$> l) -> b ∈ l -> name b = Some n -> Spec.lookup l n = Some b.
Proof.
  intros Hnd Hb Hn. apply spec_lookup_last.
  apply list_elem_of_split in Hb as (before & after & ->).
  exists before, after. split; [done|]. split; [done|].
  rewrite fmap_app, fmap_cons in Hnd.
  apply NoDup_app in Hnd as (_ & _ & Hnd). apply NoDup_cons in Hnd as [Hnot _].
  apply Forall_forall. intros b' Hb' E. apply Hnot.
  rewrite Hn, <- E. by apply list_elem_of_fmap_2.
Qed.

Lemma change_of_equal_timings (c : Q) :
  (0 < c)%Q -> classify ((c - c) / c * 100)%Q = Unchanged.
Proof.
  intros Hc. apply classify_spec.
  assert ((c - c) / c * 100 == 0)%Q as E.
  { field. intros E. rewrite E in Hc. by apply Qlt_irrefl in Hc. }
  rewrite E. split; lra.
Qed.

Lemma pair_with_itself (b : bench) (st : Z * Z) :
  numeric b -> exists c, compare_pair b b = Ok c /\ count st c = st.
Proof.
  intros [q Hq]. unfold compare_pair.
  rewrite (both_positive_numeric _ _ q q Hq Hq).
  destruct (Qltb 0 q) eqn:E; simpl.
  - apply Qltb_lt in E. rewrite (change_pct_numeric _ _ q q Hq Hq E). simpl.
    eexists. split; [done|]. simpl. by rewrite (change_of_equal_timings q E).
  - by exists None.
Qed.

Lemma loops_on_own_entries (lookup : gmap string bench) (l : list bench) (st : Z * Z) :
  Forall (fun b => numeric b /\ exists n, name b = Some n /\ lookup !! n = Some b) l ->
  summary_loop lookup st l = Ok st.
Proof.
  induction 1 as [|b l (Hnum & n & Hn & Hl) _ IH]; [done|].
  simpl. unfold summary_body, getitem_name. rewrite Hn. cbn [bind].
  rewrite Hl. destruct (pair_with_itself b st Hnum) as (c & -> & Hc).
  cbn [bind]. by rewrite Hc.
Qed.

Lemma build_lookup_Ok_named (bs : list bench) (acc m : gmap string bench) :
  build_lookup bs acc = Ok m -> Forall named bs.
Proof.
  intros H. destruct (decide (Forall named bs)) as [|Hn]; [done|].
  by rewrite (build_lookup_unnamed _ acc Hn) in H.
Qed.

(** X2.  A report compared with itself shows no change: when no name
    occurs twice in it and the summary is produced, the summary counts no
    regression and no improvement, and the score change is 0. *)
Theorem self_comparison_is_unchanged (d : data) (s : summary) :
  NoDup (name <$> get_benchmarks d) ->
  create_summary_report d d = Ok s ->
  regressions s = 0%Z /\ improvements s = 0%Z /\
  (current_score s == baseline_score s)%Q /\ (score_change s == 0)%Q.
Proof.
  intros Hnd H. unfold create_summary_report in H.
  apply bind_Ok in H as (lookup & Hl & H).
  pose proof (build_lookup_Ok_named _ _ _ Hl) as Hnamed.
  apply bind_Ok in H as (st & Hst & H).
  apply bind_Ok in H as (u & _ & H).
  apply bind_Ok in H as (cs & Hcs & H).
  apply bind_Ok in H as (bs & Hbs & [= <-]).
  rewrite Hcs in Hbs. injection Hbs as <-.
  pose proof (score_Ok_numeric _ _ Hcs) as Hnum.
  assert (Forall (fun b => numeric b /\
                           exists n, name b = Some n /\ lookup !! n = Some b)
                 (get_benchmarks d)) as Hown.
  { apply Forall_forall. intros b Hb.
    rewrite Forall_forall in Hnamed, Hnum.
    split; [by apply Hnum|]. destruct (Hnamed b Hb) as [n Hn].
    exists n. split; [done|]. rewrite (baseline_lookup_spec _ _ Hl).
    by apply nodup_lookup_self. }
  rewrite (loops_on_own_entries lookup _ (0, 0)%Z Hown) in Hst. injection Hst as <-. simpl.
  split; [done|]. split; [done|]. split; [reflexivity | ring].
Qed.

(** A report of two distinct benchmarks. *)
Lemma self_comparison_is_unchanged_witness :
  NoDup (name <$> get_benchmarks (report [measured "A" 300; counted "B" 100])) /\
  exists s,
    create_summary_report (report [measured "A" 300; counted "B" 100])
                          (report [measured "A" 300; counted "B" 100]) = Ok s /\
    regressions s = 0%Z /\ improvements s = 0%Z /\
    (current_score s == baseline_score s)%Q /\ (score_change s == 0)%Q.
Proof.
  assert (NoDup (name <$> get_benchmarks (report [measured "A" 300; counted "B" 100])))
    as Hnd.
  { apply (bool_decide_unpack _). vm_compute. exact I. }
  split; [exact Hnd|]. eexists. split; [vm_compute; reflexivity|].
  exact (self_comparison_is_unchanged _ _ Hnd eq_refl).
Defined.

(** ** The score *)

(** X3.  A benchmark whose ns_per_op is absent, zero or negative has no
    influence on the score: with or without it, the report gets the very
    same score. *)
Theorem score_ignores_untimed_entries (l1 l2 : list bench) (b : bench) (q : Q) :
  as_number (get_ns_per_op b) = Ok q -> (q <= 0)%Q ->
  calculate_performance_score (report (l1 ++ b :: l2)) =
  calculate_performance_score (report (l1 ++ l2)).
Proof.
  intros Hq Hle.
  assert (py_gt (get_ns_per_op b) 0 = Ok false) as Hb.
  { unfold py_gt. rewrite Hq. cbn [bind]. f_equal. by apply Qltb_ge. }
  apply score_from_values. by apply ns_values_skip.
Qed.

(** An entry without ns_per_op between two timed ones. *)
Lemma score_ignores_untimed_entries_witness :
  as_number (get_ns_per_op (untimed "B")) = Ok 0%Q /\ (0 <= 0)%Q /\
  calculate_performance_score (report ([measured "A" 300] ++ untimed "B" :: [measured "C" 100])) =
  calculate_performance_score (report ([measured "A" 300] ++ [measured "C" 100])).
Proof.
  assert (0 <= 0)%Q as H0 by apply Qle_refl.
  split; [reflexivity|]. split; [exact H0|].
  exact (score_ignores_untimed_entries [measured "A" 300] [measured "C" 100]
           (untimed "B") 0%Q eq_refl H0).
Defined.

(** ** Rows of the comparison chart *)

Lemma chart_pair_Some (nm : string) (cb bb : bench) (x : row) :
  chart_pair nm cb bb = Ok (Some x) ->
  exists c b,
    as_number (current_value x) = Ok c /\
    as_number (baseline_value x) = Ok b /\
    (0 < c)%Q /\ (0 < b)%Q /\
    improvement x = ((b - c) / b * 100)%Q.
Proof.
  unfold chart_pair. rewrite bind_Ok. intros ([] & Hpos & H); [|done].
  apply both_positive_true in Hpos as (b & c & Hb & Hc & Hb0 & Hc0).
  rewrite (improvement_pct_numeric _ _ c b Hc Hb Hb0) in H. cbn [bind] in H.
  injection H as <-. by exists c, b.
Qed.

Lemma chart_loop_rows (lookup : gmap string bench) (cur : list bench)
    (rows : list row) (P : row -> Prop) :
  (forall nm cb bb x, chart_pair nm cb bb = Ok (Some x) -> P x) ->
  chart_loop lookup cur = Ok rows -> Forall P rows.
Proof.
  intros HP. revert rows. induction cur as [|cb cur IH]; intros rows H.
  - simpl in H. injection H as <-. constructor.
  - simpl in H. apply bind_Ok in H as (o & Ho & H).
    apply bind_Ok in H as (rs & Hrs & [= <-]). specialize (IH _ Hrs).
    destruct o as [x|]; [|done]. constructor; [|done].
    unfold chart_body in Ho. apply bind_Ok in Ho as (n & _ & Ho).
    destruct (lookup !! n) as [bb|]; [|done]. by eapply HP.
Qed.

Lemma improvement_sign (c b : Q) :
  (0 < c)%Q -> (0 < b)%Q ->
  ((0 < (b - c) / b * 100)%Q <-> (c < b)%Q).
Proof.
  intros Hc Hb. unfold Qdiv.
  pose proof (Qinv_lt_0_compat b Hb) as Hr.
  split.
  - intros H. destruct (Qlt_le_dec c b) as [|Hle]; [done|]. exfalso.
    assert (0 <= (c - b) * / b)%Q by (apply Qmult_le_0_compat; lra). lra.
  - intros H. assert (0 < (b - c) * / b)%Q by (apply Qmult_lt_0_compat; lra). lra.
Qed.

(** X6.  Every row of the comparison chart holds two positive timings, and
    there is one colour per row.  A bar is green only if the current timing
    is strictly below the baseline timing; a benchmark whose timing did not
    move gets a red bar. *)
Theorem chart_rows_and_colors
    (current_data baseline_data : data) (rows : list row) :
  create_benchmark_comparison_chart current_data baseline_data = Ok rows ->
  length (bar_colors rows) = length rows /\
  Forall (fun x =>
            exists c b,
              as_number (current_value x) = Ok c /\
              as_number (baseline_value x) = Ok b /\
              (0 < c)%Q /\ (0 < b)%Q /\
              (bar_color x = "green" -> (c < b)%Q) /\
              ((c == b)%Q -> bar_color x = "red"))
         rows.
Proof.
  unfold create_benchmark_comparison_chart. rewrite bind_Ok.
  intros (lookup & _ & H). split; [apply length_map|].
  eapply chart_loop_rows; [|exact H].
  intros nm cb bb x Hx.
  apply chart_pair_Some in Hx as (c & b & Hc & Hb & Hc0 & Hb0 & Ex).
  exists c, b. repeat (split; [done|]).
  pose proof (improvement_sign c b Hc0 Hb0) as Hsign.
  unfold bar_color. rewrite Ex.
  destruct (Qltb 0 ((b - c) / b * 100)) eqn:E.
  - apply Qltb_lt in E. apply Hsign in E. split; [done|]. intros H'. lra.
  - split; [discriminate | done].
Qed.

(** A faster, a slower and an unmoved benchmark: green, red, red. *)
Lemma chart_rows_and_colors_witness :
  exists rows,
    create_benchmark_comparison_chart
      (report [measured "A" 100; measured "B" 300; counted "C" 50])
      (report [measured "A" 200; measured "B" 200; counted "C" 50]) = Ok rows /\
    bar_colors rows = ["green"; "red"; "red"] /\
    Forall (fun x =>
              exists c b,
                as_number (current_value x) = Ok c /\
                as_number (baseline_value x) = Ok b /\
                (0 < c)%Q /\ (0 < b)%Q /\
                (bar_color x = "green" -> (c < b)%Q) /\
                ((c == b)%Q -> bar_color x = "red"))
           rows.
Proof.
  eexists. split; [vm_compute; reflexivity|]. split; [reflexivity|].
  apply (chart_rows_and_colors
           (report [measured "A" 100; measured "B" 300; counted "C" 50])
           (report [measured "A" 200; measured "B" 200; counted "C" 50])).
  vm_compute. reflexivity.
Defined.

(** X7.  A current benchmark whose name no baseline entry carries leaves no
    trace in the comparison chart: with or without it the chart function
    returns the same result, whatever the entry holds as ns_per_op (it is
    never read). *)
Theorem unmatched_entry_leaves_chart_unchanged
    (l1 l2 base : list bench) (b : bench) (n : string) :
  name b = Some n ->
  Forall (fun bb => name bb <> Some n) base ->
  create_benchmark_comparison_chart (report (l1 ++ b :: l2)) (report base) =
  create_benchmark_comparison_chart (report (l1 ++ l2)) (report base).
Proof.
  intros Hn Hbase. unfold create_benchmark_comparison_chart.
  change (get_benchmarks (report base)) with base.
  change (get_benchmarks (report (l1 ++ b :: l2))) with (l1 ++ b :: l2).
  change (get_benchmarks (report (l1 ++ l2))) with (l1 ++ l2).
  destruct (baseline_lookup base) as [lookup|e] eqn:El; [|done]. cbn [bind].
  apply chart_loop_skip. unfold chart_body, getitem_name. rewrite Hn. cbn [bind].
  rewrite (baseline_lookup_spec _ _ El).
  by rewrite (proj2 (spec_lookup_absent base n) Hbase).
Qed.

(** An unmatched entry whose ns_per_op is a string. *)
Lemma unmatched_entry_leaves_chart_unchanged_witness :
  name (Bench (Some "Z") (Some (PyStr "fast")) None) = Some "Z" /\
  Forall (fun bb => name bb <> Some "Z") [measured "A" 200] /\
  create_benchmark_comparison_chart
    (report ([measured "A" 100] ++ Bench (Some "Z") (Some (PyStr "fast")) None :: []))
    (report [measured "A" 200]) =
  create_benchmark_comparison_chart
    (report ([measured "A" 100] ++ [])) (report [measured "A" 200]).
Proof.
  assert (Forall (fun bb => name bb <> Some "Z") [measured "A" 200]) as Hbase.
  { constructor; [discriminate | constructor]. }
  split; [reflexivity|]. split; [exact Hbase|].
  exact (unmatched_entry_leaves_chart_unchanged
           [measured "A" 100] [] [measured "A" 200]
           (Bench (Some "Z") (Some (PyStr "fast")) None) "Z" eq_refl Hbase).
Defined.

(** ** Bar labels *)

Lemma prefix_append (old s : string) :
  String.prefix old s = true -> exists post, s = String.append old post.
Proof.
  revert s. induction old as [|c old IH]; intros s H.
  - by exists s.
  - destruct s as [|c' s]; [done|]. simpl in H.
    destruct (Ascii.ascii_dec c c') as [->|]; [|done].
    destruct (IH _ H) as [post ->]. by exists post.
Qed.

Lemma prefix_self_append (old s : string) :
  String.prefix old (String.append old s) = true.
Proof.
  induction old as [|c old IH]; simpl.
  - by destruct s.
  - by destruct (Ascii.ascii_dec c c).
Qed.

Lemma replace_skip (old new p s : string) :
  replace_from old new (String.length p) (String.append p s) =
  replace_from old new O s.
Proof. induction p as [|c p IH]; simpl; [by destruct s | done]. Qed.

(** Where the text starts with [old], [old] is replaced and the scan goes
    on behind it. *)
Lemma replace_at_match (c : Ascii.ascii) (old new s : string) :
  replace_from (String c old) new O (String.append (String c old) s) =
  String.append new (replace_from (String c old) new O s).
Proof.
  pose proof (prefix_self_append (String c old) s) as Hp.
  change (String.append (String c old) s) with (String c (String.append old s)) in *.
  cbn [replace_from]. rewrite Hp. f_equal.
  change (Init.Nat.pred (String.length (String c old))) with (String.length old).
  apply replace_skip.
Qed.

Lemma replace_without_occurrence (old new s : string) :
  ~ occurs old s -> replace_from old new O s = s.
Proof.
  induction s as [|c s IH]; intros Hno; [done|].
  cbn [replace_from].
  destruct (String.prefix old (String c s)) eqn:E.
  - exfalso. apply Hno. apply prefix_append in E as [post E].
    exists EmptyString, post. by rewrite E.
  - f_equal. apply IH. intros (pre & post & ->). apply Hno.
    by exists (String c pre), post.
Qed.

(** X8.  The label of a bar is the benchmark name with the text
    "Benchmark" taken out: a name that does not contain it is its own
    label, and the name "Benchmark" followed by such a text is labelled by
    that text alone. *)
Theorem label_drops_benchmark_prefix (s : string) :
  ~ occurs "Benchmark" s ->
  str_replace s "Benchmark" "" = s /\
  str_replace (String.append "Benchmark" s) "Benchmark" "" = s.
Proof.
  intros Hno. unfold str_replace. split.
  - by apply replace_without_occurrence.
  - rewrite replace_at_match. by apply replace_without_occurrence.
Qed.

(** The name of a typical Go benchmark. *)
Lemma label_drops_benchmark_prefix_witness :
  str_replace "Scheduler" "Benchmark" "" = "Scheduler" /\
  str_replace "BenchmarkScheduler" "Benchmark" "" = "Scheduler".
Proof.
  apply (label_drops_benchmark_prefix "Scheduler").
  intros (pre & post & E).
  do 9 (destruct pre as [|? pre]; simpl in E; [discriminate E|]; injection E as _ E).
  destruct pre; discriminate E.
Defined.

(** ** The resource usage chart *)

Lemma build_metric_lookup_spec (ms : list metric_entry)
    (acc m : gmap string metric_entry) :
  build_metric_lookup ms acc = Ok m ->
  forall k, m !! k = match last_entry ms k with
                     | Some e => Some e
                     | None => acc !! k
                     end.
Proof.
  revert acc. induction ms as [|e ms IH]; intros acc H k.
  - simpl in H. by injection H as <-.
  - simpl in H. apply bind_Ok in H as (n & Hn & H).
    unfold getitem_metric in Hn. destruct (metric e) as [n'|] eqn:Ee; [|done].
    injection Hn as ->.
    rewrite (IH _ H k). unfold last_entry. rewrite find_rev_cons.
    destruct (List.find _ (rev ms)); [done|].
    rewrite Ee, lookup_insert.
    destruct (decide (n = k)) as [->|Hne].
    + by rewrite bool_decide_eq_true_2.
    + rewrite bool_decide_eq_false_2; [done|]. congruence.
Qed.

Lemma metric_lookup_last (ms : list metric_entry) (m : gmap string metric_entry) :
  build_metric_lookup ms ∅ = Ok m -> forall k, m !! k = last_entry ms k.
Proof.
  intros H k. rewrite (build_metric_lookup_spec _ _ _ H k), lookup_empty.
  by destruct (last_entry ms k).
Qed.

Lemma build_metric_lookup_keyed (ms : list metric_entry)
    (acc : gmap string metric_entry) :
  Forall (fun e => is_Some (metric e)) ms ->
  exists m, build_metric_lookup ms acc = Ok m.
Proof.
  intros H. revert acc. induction H as [|e ms [n Hn] _ IH]; intros acc.
  - by exists acc.
  - simpl. unfold getitem_metric. rewrite Hn. cbn [bind]. apply IH.
Qed.

Lemma build_metric_lookup_unkeyed (ms : list metric_entry)
    (acc : gmap string metric_entry) :
  ~ Forall (fun e => is_Some (metric e)) ms ->
  build_metric_lookup ms acc = Raise KeyError.
Proof.
  revert acc. induction ms as [|e ms IH]; intros acc H.
  - exfalso. apply H. constructor.
  - simpl. unfold getitem_metric. destruct (metric e) as [n|] eqn:Ee; [|done].
    cbn [bind]. apply IH. intros Hms. apply H. constructor; [by exists n | done].
Qed.

Section ResourceFacts.

Variable float_of_str : string -> option Q.

Lemma resource_pair_converted (c b : metric_entry) (p : option (Q * Q)) :
  resource_pair float_of_str c b = Ok p ->
  p = (vc ← value c; vb ← value b;
       match py_float float_of_str vc, py_float float_of_str vb with
       | FloatOk x, FloatOk y => Some (x, y)
       | _, _ => None
       end).
Proof.
  unfold resource_pair, getitem_value.
  destruct (value c) as [vc|]; [|done]. cbn [bind]. simpl.
  destruct (py_float float_of_str vc) as [x| | |]; [| |done|done].
  - destruct (value b) as [vb|]; [|done]. cbn [bind]. simpl.
    destruct (py_float float_of_str vb) as [y| | |]; [| |done|done];
      by intros [= <-].
  - intros [= <-]. by destruct (value b).
Qed.

Lemma resource_body_converted (cl bl : gmap string metric_entry)
    (triples : list (string * Q * Q)) (m : string) (acc' : resource_lists) :
  resource_body float_of_str cl bl (columns triples) m = Ok acc' ->
  acc' = columns (triples ++ option_list (converted float_of_str cl bl m)).
Proof.
  unfold resource_body, converted.
  destruct (cl !! m) as [c|]; simpl; [|intros [= <-]; by rewrite app_nil_r].
  destruct (bl !! m) as [b|]; simpl; [|intros [= <-]; by rewrite app_nil_r].
  rewrite bind_Ok. intros (p & Hp & H).
  apply resource_pair_converted in Hp. subst p.
  destruct (value c) as [vc|]; simpl in *;
    [|injection H as <-; by rewrite app_nil_r].
  destruct (value b) as [vb|]; simpl in *;
    [|injection H as <-; by rewrite app_nil_r].
  destruct (py_float float_of_str vc) as [x| | |],
           (py_float float_of_str vb) as [y| | |]; simpl in *;
    injection H as <-; rewrite ?app_nil_r; try done.
  unfold columns. by rewrite !map_app.
Qed.

Lemma resource_loop_converted (cl bl : gmap string metric_entry)
    (ms : list string) (triples : list (string * Q * Q)) (r : resource_lists) :
  resource_loop float_of_str cl bl (columns triples) ms = Ok r ->
  r = columns (triples ++ omap (converted float_of_str cl bl) ms).
Proof.
  revert triples. induction ms as [|m ms IH]; intros triples H.
  - simpl in H. injection H as <-. by rewrite app_nil_r.
  - simpl in H. apply bind_Ok in H as (acc' & Hb & H).
    apply resource_body_converted in Hb. subst acc'.
    apply IH in H. rewrite H, <- app_assoc. f_equal. f_equal.
    simpl. by destruct (converted float_of_str cl bl m).
Qed.

Lemma create_resource_usage_chart_Ok (current_data baseline_data : report_dict)
    (r : resource_lists) :
  create_resource_usage_chart float_of_str current_data baseline_data = Ok r ->
  exists cl bl,
    (forall k, cl !! k = last_entry (get_performance_metrics current_data) k) /\
    (forall k, bl !! k = last_entry (get_performance_metrics baseline_data) k) /\
    r = columns (omap (converted float_of_str cl bl) resource_metrics).
Proof.
  unfold create_resource_usage_chart. rewrite bind_Ok. intros (cl & Hcl & H).
  apply bind_Ok in H as (bl & Hbl & H).
  exists cl, bl. split; [by apply metric_lookup_last|].
  split; [by apply metric_lookup_last|].
  by apply (resource_loop_converted cl bl resource_metrics []) in H.
Qed.

Lemma converted_Some (cl bl : gmap string metric_entry) (m : string)
    (t : string * Q * Q) :
  converted float_of_str cl bl m = Some t <->
  exists c b vc vb,
    cl !! m = Some c /\ bl !! m = Some b /\
    value c = Some vc /\ value b = Some vb /\
    py_float float_of_str vc = FloatOk (snd (fst t)) /\
    py_float float_of_str vb = FloatOk (snd t) /\
    fst (fst t) = m.
Proof.
  unfold converted. split.
  - destruct (cl !! m) as [c|] eqn:Ec; simpl; [|done].
    destruct (bl !! m) as [b|] eqn:Eb; simpl; [|done].
    destruct (value c) as [vc|] eqn:Evc; simpl; [|done].
    destruct (value b) as [vb|] eqn:Evb; simpl; [|done].
    destruct (py_float float_of_str vc) as [x| | |] eqn:Ex; [| done | done | done].
    destruct (py_float float_of_str vb) as [y| | |] eqn:Ey; [| done | done | done].
    intros [= <-]. by exists c, b, vc, vb.
  - intros (c & b & vc & vb & -> & -> & Hc & Hb & Hx & Hy & Hm). simpl.
    rewrite Hc, Hb. simpl. rewrite Hx, Hy. destruct t as [[m' x] y]. simpl in *.
    by subst m'.
Qed.

Lemma converted_names_sublist (cl bl : gmap string metric_entry) (ms : list string) :
  sublist (map (fun t => fst (fst t)) (omap (converted float_of_str cl bl) ms)) ms.
Proof.
  induction ms as [|m ms IH]; simpl; [constructor|].
  destruct (converted float_of_str cl bl m) as [t|] eqn:E; simpl.
  - apply converted_Some in E as (_ & _ & _ & _ & _ & _ & _ & _ & _ & _ & ->).
    by constructor.
  - by constructor.
Qed.

(** X9.  The three lists of the resource chart stay aligned: they are the
    columns of one list of triples, at most one per metric and in the order
    CPU, Memory, Network; the two numbers of a triple are the conversions
    of the values that the last current and the last baseline entry of that
    metric hold. *)
Theorem resource_lists_are_aligned
    (current_data baseline_data : report_dict) (r : resource_lists) :
  create_resource_usage_chart float_of_str current_data baseline_data = Ok r ->
  exists triples,
    r = columns triples /\
    length (current_values r) = length (metric_names r) /\
    length (baseline_values r) = length (metric_names r) /\
    sublist (metric_names r) resource_metrics /\
    Forall (fun t =>
              exists c b vc vb,
                last_entry (get_performance_metrics current_data) (fst (fst t)) = Some c /\
                last_entry (get_performance_metrics baseline_data) (fst (fst t)) = Some b /\
                value c = Some vc /\ value b = Some vb /\
                py_float float_of_str vc = FloatOk (snd (fst t)) /\
                py_float float_of_str vb = FloatOk (snd t))
           triples.
Proof.
  intros H. apply create_resource_usage_chart_Ok in H as (cl & bl & Hcl & Hbl & ->).
  eexists. split; [reflexivity|].
  unfold columns. cbn [current_values baseline_values metric_names].
  rewrite !length_map.
  split; [done|]. split; [done|]. split; [apply converted_names_sublist|].
  apply Forall_forall. intros t Ht.
  apply list_elem_of_omap in Ht as (m & _ & Ht).
  apply converted_Some in Ht as (c & b & vc & vb & Hc & Hb & Hvc & Hvb & Hx & Hy & <-).
  exists c, b, vc, vb. by rewrite <- Hcl, <- Hbl.
Qed.

End ResourceFacts.

Lemma find_app_other {A} (p : A -> bool) (l1 l2 : list A) (x : A) :
  p x = false -> List.find p (l1 ++ x :: l2) = List.find p (l1 ++ l2).
Proof.
  intros Hx. induction l1 as [|a l1 IH]; simpl.
  - by rewrite Hx.
  - by rewrite IH.
Qed.

Lemma last_entry_other (l1 l2 : list metric_entry) (e : metric_entry) (k : string) :
  metric e <> Some k -> last_entry (l1 ++ e :: l2) k = last_entry (l1 ++ l2) k.
Proof.
  intros Hk. unfold last_entry.
  rewrite !rev_app_distr. simpl. rewrite <- app_assoc. simpl.
  apply find_app_other. by apply bool_decide_eq_false.
Qed.

Section ResourceErrors.

Variable float_of_str : string -> option Q.

Lemma resource_chart_unkeyed (current_data baseline_data : report_dict) :
  ~ Forall keyed
      (get_performance_metrics current_data ++ get_performance_metrics baseline_data) ->
  create_resource_usage_chart float_of_str current_data baseline_data = Raise KeyError.
Proof.
  intros H. unfold create_resource_usage_chart. rewrite Forall_app in H.
  destruct (decide (Forall (fun e => is_Some (metric e))
                           (get_performance_metrics current_data))) as [Hc|Hc].
  - destruct (build_metric_lookup_keyed _ ∅ Hc) as [cl ->]. cbn [bind].
    rewrite build_metric_lookup_unkeyed by tauto. done.
  - by rewrite build_metric_lookup_unkeyed.
Qed.

(** The first metric of the loop, found on both sides: what its pair of
    values raises, the chart function raises. *)
Lemma resource_chart_first_metric (current_data baseline_data : report_dict)
    (c b : metric_entry) (e : exn) :
  Forall keyed
    (get_performance_metrics current_data ++ get_performance_metrics baseline_data) ->
  last_entry (get_performance_metrics current_data) "CPU" = Some c ->
  last_entry (get_performance_metrics baseline_data) "CPU" = Some b ->
  resource_pair float_of_str c b = Raise e ->
  create_resource_usage_chart float_of_str current_data baseline_data = Raise e.
Proof.
  intros H Hc Hb He. apply Forall_app in H as [Hkc Hkb].
  unfold create_resource_usage_chart.
  destruct (build_metric_lookup_keyed _ ∅ Hkc) as [cl Hcl].
  destruct (build_metric_lookup_keyed _ ∅ Hkb) as [bl Hbl].
  rewrite Hcl, Hbl. cbn [bind]. unfold resource_metrics.
  cbn [resource_loop]. unfold resource_body at 1.
  rewrite (metric_lookup_last _ _ Hcl), (metric_lookup_last _ _ Hbl), Hc, Hb.
  by rewrite He.
Qed.

(** X10.  What the [try] of the resource chart does not catch.  An entry
    without a 'metric' key, in either report and for whatever metric, raises
    [KeyError].  When both reports have a CPU entry, a missing 'value' key
    raises [KeyError], and a value that [float] refuses with [TypeError]
    (null) or with [OverflowError] (an integer too large for a float, such
    as 10^400) ends the function with that exception; the current value is
    converted first. *)
Theorem resource_chart_errors :
  (forall current_data baseline_data : report_dict,
     ~ Forall keyed
         (get_performance_metrics current_data
            ++ get_performance_metrics baseline_data) ->
     create_resource_usage_chart float_of_str current_data baseline_data
       = Raise KeyError) /\
  (forall (current_data baseline_data : report_dict) (c b : metric_entry),
     Forall keyed
       (get_performance_metrics current_data
          ++ get_performance_metrics baseline_data) ->
     last_entry (get_performance_metrics current_data) "CPU" = Some c ->
     last_entry (get_performance_metrics baseline_data) "CPU" = Some b ->
     (value c = None ->
      create_resource_usage_chart float_of_str current_data baseline_data
        = Raise KeyError) /\
     (forall v e,
        value c = Some v -> escapes (py_float float_of_str v) = Some e ->
        create_resource_usage_chart float_of_str current_data baseline_data
          = Raise e) /\
     (forall v x,
        value c = Some v -> py_float float_of_str v = FloatOk x ->
        (value b = None ->
         create_resource_usage_chart float_of_str current_data baseline_data
           = Raise KeyError) /\
        (forall w e,
           value b = Some w -> escapes (py_float float_of_str w) = Some e ->
           create_resource_usage_chart float_of_str current_data baseline_data
             = Raise e))) /\
  py_float float_of_str PyNone = FloatTypeError /\
  py_float float_of_str (PyInt (10 ^ 400)) = FloatOverflowError /\
  py_float float_of_str (PyInt (- 10 ^ 400)) = FloatOverflowError.
Proof.
  split; [apply resource_chart_unkeyed|].
  split; [|split; [reflexivity | split; vm_compute; reflexivity]].
  intros current_data baseline_data c b Hk Hc Hb.
  split; [|split].
  - intros Hv. apply (resource_chart_first_metric _ _ c b); try done.
    unfold resource_pair, getitem_value. by rewrite Hv.
  - intros v e Hv He. apply (resource_chart_first_metric _ _ c b); try done.
    unfold resource_pair, getitem_value. rewrite Hv. cbn [bind].
    destruct (py_float float_of_str v); simpl in He; try done; by injection He as <-.
  - intros v x Hv Hx. split.
    + intros Hw. apply (resource_chart_first_metric _ _ c b); try done.
      unfold resource_pair, getitem_value. rewrite Hv. cbn [bind].
      by rewrite Hx, Hw.
    + intros w e Hw He. apply (resource_chart_first_metric _ _ c b); try done.
      unfold resource_pair, getitem_value. rewrite Hv. cbn [bind].
      rewrite Hx, Hw. cbn [bind].
      destruct (py_float float_of_str w); simpl in He; try done;
        by injection He as <-.
Qed.

Lemma resource_loop_ext (cl cl' bl bl' : gmap string metric_entry)
    (ms : list string) (acc : resource_lists) :
  Forall (fun m => cl !! m = cl' !! m /\ bl !! m = bl' !! m) ms ->
  resource_loop float_of_str cl bl acc ms = resource_loop float_of_str cl' bl' acc ms.
Proof.
  intros H. revert acc. induction H as [|m ms [Hc Hb] _ IH]; intros acc; [done|].
  simpl. unfold resource_body. rewrite Hc, Hb.
  destruct (cl' !! m) as [c|]; [|cbn [bind]; apply IH].
  destruct (bl' !! m) as [b|]; [|cbn [bind]; apply IH].
  destruct (resource_pair float_of_str c b) as [[[x y]|]|]; cbn [bind];
    [apply IH | apply IH | done].
Qed.

Lemma build_with_other_metric (l1 l2 : list metric_entry) (e : metric_entry)
    (n : string) :
  metric e = Some n ->
  match build_metric_lookup (l1 ++ e :: l2) ∅, build_metric_lookup (l1 ++ l2) ∅ with
  | Ok m', Ok m => forall k, k <> n -> m' !! k = m !! k
  | Raise e1, Raise e2 => e1 = e2
  | _, _ => False
  end.
Proof.
  intros Hn.
  destruct (decide (Forall (fun x => is_Some (metric x)) (l1 ++ l2))) as [H|H].
  - assert (Forall (fun x => is_Some (metric x)) (l1 ++ e :: l2)) as H'.
    { apply Forall_app in H as [H1 H2]. apply Forall_app. split; [done|].
      constructor; [by exists n | done]. }
    destruct (build_metric_lookup_keyed _ ∅ H) as [m Hm].
    destruct (build_metric_lookup_keyed _ ∅ H') as [m' Hm'].
    rewrite Hm, Hm'. intros k Hk.
    rewrite (metric_lookup_last _ _ Hm), (metric_lookup_last _ _ Hm').
    apply last_entry_other. congruence.
  - assert (~ Forall (fun x => is_Some (metric x)) (l1 ++ e :: l2)) as H'.
    { intros H'. apply H. apply Forall_app in H' as [H1 H2]. apply Forall_app.
      split; [done|]. by apply Forall_cons in H2 as [_ H2]. }
    by rewrite !build_metric_lookup_unkeyed.
Qed.

(** X11.  Only the metrics CPU, Memory and Network matter: an entry for any
    other metric, whatever its value (or without one), can be added to or
    removed from either report without changing what the resource chart
    function returns. *)
Theorem other_metrics_are_ignored
    (l1 l2 others : list metric_entry) (e : metric_entry) (n : string) :
  metric e = Some n -> n ∉ resource_metrics ->
  create_resource_usage_chart float_of_str
    (metrics_only (l1 ++ e :: l2)) (metrics_only others) =
  create_resource_usage_chart float_of_str
    (metrics_only (l1 ++ l2)) (metrics_only others) /\
  create_resource_usage_chart float_of_str
    (metrics_only others) (metrics_only (l1 ++ e :: l2)) =
  create_resource_usage_chart float_of_str
    (metrics_only others) (metrics_only (l1 ++ l2)).
Proof.
  intros Hn Hout. unfold create_resource_usage_chart.
  change (get_performance_metrics (metrics_only (l1 ++ e :: l2))) with (l1 ++ e :: l2).
  change (get_performance_metrics (metrics_only (l1 ++ l2))) with (l1 ++ l2).
  change (get_performance_metrics (metrics_only others)) with others.
  pose proof (build_with_other_metric l1 l2 e n Hn) as Hb.
  destruct (build_metric_lookup (l1 ++ e :: l2) ∅) as [m'|e1],
           (build_metric_lookup (l1 ++ l2) ∅) as [m|e2]; try done.
  - assert (Forall (fun k => m' !! k = m !! k) resource_metrics) as Hagree.
    { apply Forall_forall. intros k Hk. apply Hb. intros ->. by apply Hout. }
    split; cbn [bind].
    + destruct (build_metric_lookup others ∅) as [o|]; [|done]. cbn [bind].
      apply resource_loop_ext. eapply Forall_impl; [exact Hagree|]. by intros k ->.
    + destruct (build_metric_lookup others ∅) as [o|]; [|done]. cbn [bind].
      apply resource_loop_ext. eapply Forall_impl; [exact Hagree|]. by intros k ->.
  - subst e2. split; cbn [bind]; [done|].
    by destruct (build_metric_lookup others ∅).
Qed.

End ResourceErrors.

(** A current report with an unreadable Memory value and a Disk entry
    without value; every entry has both keys otherwise. *)
Lemma resource_lists_are_aligned_witness :
  exists r triples,
    create_resource_usage_chart sample_float
      (metrics_only [reading "CPU" (PyStr "12.5"); reading "Memory" (PyStr "lots");
                     reading "Network" (PyNum 3)])
      (metrics_only [reading "CPU" (PyStr "80"); reading "Memory" (PyNum 2);
                     reading "Network" (PyBool true)]) = Ok r /\
    r = columns triples /\
    metric_names r = ["CPU"; "Network"] /\
    length (current_values r) = length (metric_names r) /\
    length (baseline_values r) = length (metric_names r) /\
    sublist (metric_names r) resource_metrics.
Proof.
  eexists.
  destruct (resource_lists_are_aligned sample_float
              (metrics_only [reading "CPU" (PyStr "12.5"); reading "Memory" (PyStr "lots");
                             reading "Network" (PyNum 3)])
              (metrics_only [reading "CPU" (PyStr "80"); reading "Memory" (PyNum 2);
                             reading "Network" (PyBool true)])
              _ eq_refl) as (triples & Hr & Hc & Hb & Hsub & _).
  exists triples. repeat split; done.
Defined.

(** A CPU reading that is an integer of 401 digits, next to a Disk entry
    without a value. *)
Lemma resource_chart_errors_witness :
  create_resource_usage_chart sample_float
    (metrics_only [reading "CPU" (PyInt (10 ^ 400)); MetricEntry (Some "Disk") None])
    (metrics_only [reading "CPU" (PyNum 2)]) = Raise OverflowError /\
  create_resource_usage_chart sample_float
    (metrics_only [reading "CPU" (PyStr "12.5")])
    (metrics_only [reading "CPU" PyNone]) = Raise TypeError.
Proof.
  split.
  - apply (proj1 (proj2 (proj1 (proj2 (resource_chart_errors sample_float))
             (metrics_only [reading "CPU" (PyInt (10 ^ 400));
                            MetricEntry (Some "Disk") None])
             (metrics_only [reading "CPU" (PyNum 2)])
             (reading "CPU" (PyInt (10 ^ 400))) (reading "CPU" (PyNum 2))
             ltac:(repeat (constructor; [eexists; reflexivity|]); constructor)
             eq_refl eq_refl))
           (PyInt (10 ^ 400)) OverflowError eq_refl).
    vm_compute. reflexivity.
  - apply (proj2 (proj2 (proj2 (proj1 (proj2 (resource_chart_errors sample_float))
             (metrics_only [reading "CPU" (PyStr "12.5")])
             (metrics_only [reading "CPU" PyNone])
             (reading "CPU" (PyStr "12.5")) (reading "CPU" PyNone)
             ltac:(repeat (constructor; [eexists; reflexivity|]); constructor)
             eq_refl eq_refl))
           (PyStr "12.5") (25 # 2)%Q eq_refl eq_refl))
      with (w := PyNone) (e := TypeError); reflexivity.
Defined.

(** A Disk entry without value among the current metrics. *)
Lemma other_metrics_are_ignored_witness :
  metric (MetricEntry (Some "Disk") None) = Some "Disk" /\
  ("Disk" ∉ resource_metrics) /\
  create_resource_usage_chart sample_float
    (metrics_only ([reading "CPU" (PyNum 1)] ++ MetricEntry (Some "Disk") None :: []))
    (metrics_only [reading "CPU" (PyNum 2)]) =
  create_resource_usage_chart sample_float
    (metrics_only ([reading "CPU" (PyNum 1)] ++ []))
    (metrics_only [reading "CPU" (PyNum 2)]).
Proof.
  assert ("Disk" ∉ resource_metrics) as Hout.
  { unfold resource_metrics. rewrite list_elem_of_In. simpl.
    intros [H|[H|[H|[]]]]; discriminate H. }
  split; [reflexivity|]. split; [exact Hout|].
  exact (proj1 (other_metrics_are_ignored sample_float
                  [reading "CPU" (PyNum 1)] [] [reading "CPU" (PyNum 2)]
                  (MetricEntry (Some "Disk") None) "Disk" eq_refl Hout)).
Defined.

Section ResourceListing.

Variable float_of_str : string -> option Q.

(** X12.  Which metrics the resource chart shows: a metric is listed
    exactly when it is one of CPU, Memory and Network, both reports have an
    entry for it, and the values of the last such entries both convert to
    numbers.  A value that does not read as a number only drops its metric
    from the chart. *)
Theorem resource_metric_listed_iff
    (current_data baseline_data : report_dict) (r : resource_lists) (m : string) :
  create_resource_usage_chart float_of_str current_data baseline_data = Ok r ->
  (m ∈ metric_names r <->
   m ∈ resource_metrics /\
   exists c b vc vb x y,
     last_entry (get_performance_metrics current_data) m = Some c /\
     last_entry (get_performance_metrics baseline_data) m = Some b /\
     value c = Some vc /\ value b = Some vb /\
     py_float float_of_str vc = FloatOk x /\
     py_float float_of_str vb = FloatOk y).
Proof.
  intros H. apply create_resource_usage_chart_Ok in H as (cl & bl & Hcl & Hbl & ->).
  unfold columns. cbn [metric_names].
  change (map (fun t : string * Q * Q => fst (fst t))
              (omap (converted float_of_str cl bl) resource_metrics))
    with ((fun t : string * Q * Q => fst (fst t))
            <$> omap (converted float_of_str cl bl) resource_metrics).
  rewrite list_elem_of_fmap. split.
  - intros (t & -> & Ht). apply list_elem_of_omap in Ht as (k & Hk & Ht).
    apply converted_Some in Ht as (c & b & vc & vb & Hc & Hb & Hvc & Hvb & Hx & Hy & Hm).
    rewrite Hm. split; [done|].
    exists c, b, vc, vb, (snd (fst t)), (snd t). by rewrite <- Hcl, <- Hbl.
  - intros (Hm & c & b & vc & vb & x & y & Hc & Hb & Hvc & Hvb & Hx & Hy).
    exists (m, x, y). split; [done|]. apply list_elem_of_omap.
    exists m. split; [done|]. apply converted_Some.
    exists c, b, vc, vb. by rewrite Hcl, Hbl.
Qed.

End ResourceListing.

(** Memory is dropped for its unreadable current value, CPU is listed. *)
Lemma resource_metric_listed_iff_witness :
  exists r,
    create_resource_usage_chart sample_float
      (metrics_only [reading "CPU" (PyStr "12.5"); reading "Memory" (PyStr "lots")])
      (metrics_only [reading "CPU" (PyStr "80"); reading "Memory" (PyNum 2)]) = Ok r /\
    ("CPU" ∈ metric_names r) /\ ("Memory" ∉ metric_names r).
Proof.
  eexists. split; [vm_compute; reflexivity|].
  pose proof (fun m =>
    resource_metric_listed_iff sample_float
      (metrics_only [reading "CPU" (PyStr "12.5"); reading "Memory" (PyStr "lots")])
      (metrics_only [reading "CPU" (PyStr "80"); reading "Memory" (PyNum 2)])
      _ m eq_refl) as Hiff.
  split.
  - apply (Hiff "CPU"). split; [by left|].
    exists (reading "CPU" (PyStr "12.5")), (reading "CPU" (PyStr "80")),
           (PyStr "12.5"), (PyStr "80"), (25 # 2)%Q, 80%Q.
    by repeat split.
  - intros H. apply (Hiff "Memory") in H
      as (_ & c & b & vc & vb & x & y & Hc & _ & Hvc & _ & Hx & _).
    vm_compute in Hc. injection Hc as <-. injection Hvc as <-. discriminate Hx.
Defined.

(** ** The trend chart *)

Lemma positive_allocs_Ok (bs : list bench) (vs : list pyval) :
  positive_allocs bs = Ok vs ->
  Forall (fun b => exists q, as_number (get_allocs_per_op b) = Ok q) bs /\
  (vs <> [] <->
   exists b q, b ∈ bs /\ as_number (get_allocs_per_op b) = Ok q /\ (0 < q)%Q).
Proof.
  revert vs. induction bs as [|b bs IH]; intros vs; simpl.
  - intros [= <-]. split; [constructor|]. split; [done|].
    intros (b & q & Hb & _). by apply elem_of_nil in Hb.
  - rewrite bind_Ok. intros (keep & Hk & H).
    apply bind_Ok in H as (vs' & Hvs & [= <-]).
    apply py_gt_Ok in Hk as (q & Hq & ->).
    destruct (IH _ Hvs) as [Hnum Hiff].
    split; [constructor; [by exists q | done]|].
    destruct (Qltb 0 q) eqn:E.
    + apply Qltb_lt in E. split; [|done]. intros _. exists b, q.
      split; [apply list_elem_of_here|]. by split.
    + rewrite Hiff. apply Qltb_ge in E. split.
      * intros (b' & q' & Hb' & H'). exists b', q'.
        split; [by apply list_elem_of_further | done].
      * intros (b' & q' & Hb' & Hq' & Hpos).
        apply elem_of_cons in Hb' as [->|Hb']; [|by exists b', q'].
        rewrite Hq in Hq'. injection Hq' as <-. lra.
Qed.

Lemma create_performance_trend_chart_Ok
    (current_data baseline_data : report_dict) (t : trend_chart) :
  create_performance_trend_chart current_data baseline_data = Ok t ->
  exists ca ba cs bs,
    positive_allocs (get_benchmarks (as_data current_data)) = Ok ca /\
    positive_allocs (get_benchmarks (as_data baseline_data)) = Ok ba /\
    calculate_performance_score (as_data current_data) = Ok cs /\
    calculate_performance_score (as_data baseline_data) = Ok bs /\
    scores t = (bs, cs) /\
    current_color t = (if Qgeb cs bs then "lightgreen" else "lightcoral") /\
    histogram t = match ca, ba with
                  | _ :: _, _ :: _ => Some (ba, ca)
                  | _, _ => None
                  end /\
    length (panels t) = 2.
Proof.
  unfold create_performance_trend_chart. rewrite bind_Ok. intros (ca & Hca & H).
  apply bind_Ok in H as (ba & Hba & H).
  apply bind_Ok in H as (cs & Hcs & H).
  apply bind_Ok in H as (bs & Hbs & [= <-]).
  exists ca, ba, cs, bs. by repeat split.
Qed.

Lemma ns_values_ext (l l' : list bench) :
  Forall2 same_measurements l l' -> ns_values l = ns_values l'.
Proof.
  induction 1 as [|b b' l l' [Hns _] _ IH]; [done|].
  simpl. unfold get_ns_per_op. by rewrite Hns, IH.
Qed.

Lemma positive_allocs_ext (l l' : list bench) :
  Forall2 same_measurements l l' -> positive_allocs l = positive_allocs l'.
Proof.
  induction 1 as [|b b' l l' [_ Hal] _ IH]; [done|].
  simpl. unfold get_allocs_per_op. by rewrite Hal, IH.
Qed.

Lemma score_ext (d d' : data) :
  Forall2 same_measurements (get_benchmarks d) (get_benchmarks d') ->
  calculate_performance_score d = calculate_performance_score d'.
Proof.
  intros H. unfold calculate_performance_score.
  pose proof (ns_values_ext _ _ H) as E.
  destruct H as [|b b' l l' Hb Hl]; [done|]. by rewrite E.
Qed.

Lemma trend_chart_not_numeric (current_data baseline_data : report_dict) :
  ~ Forall measurements_numeric
      (get_benchmarks (as_data current_data)
         ++ get_benchmarks (as_data baseline_data)) ->
  exists e, create_performance_trend_chart current_data baseline_data = Raise e.
Proof.
  intros H.
  destruct (create_performance_trend_chart current_data baseline_data)
    as [t|e] eqn:E; [|by exists e].
  exfalso. apply H.
  apply create_performance_trend_chart_Ok in E
    as (ca & ba & cs & bs & Hca & Hba & Hcs & Hbs & _).
  apply positive_allocs_Ok in Hca as [Hca _].
  apply positive_allocs_Ok in Hba as [Hba _].
  apply score_Ok_numeric in Hcs. apply score_Ok_numeric in Hbs.
  apply Forall_app. split.
  - rewrite Forall_forall in Hca, Hcs |- *. intros b Hb.
    split; [by apply Hcs | by apply Hca].
  - rewrite Forall_forall in Hba, Hbs |- *. intros b Hb.
    split; [by apply Hbs | by apply Hba].
Qed.

(** X13.  The trend chart reads the two measurements of every benchmark
    and nothing else of it: two pairs of reports with the same
    'performance_stats' whose benchmarks agree, one by one, on ns_per_op and
    allocs_per_op get the same result, whatever the names are and whether
    or not there are any.  When some ns_per_op or allocs_per_op is neither a
    number nor absent, the function ends in an exception. *)
Theorem trend_chart_reads_measurements_only :
  (forall current_data baseline_data current_data' baseline_data' : report_dict,
     performance_stats current_data = performance_stats current_data' ->
     performance_stats baseline_data = performance_stats baseline_data' ->
     Forall2 same_measurements
       (get_benchmarks (as_data current_data))
       (get_benchmarks (as_data current_data')) ->
     Forall2 same_measurements
       (get_benchmarks (as_data baseline_data))
       (get_benchmarks (as_data baseline_data')) ->
     create_performance_trend_chart current_data baseline_data =
     create_performance_trend_chart current_data' baseline_data') /\
  (forall current_data baseline_data : report_dict,
     ~ Forall measurements_numeric
         (get_benchmarks (as_data current_data)
            ++ get_benchmarks (as_data baseline_data)) ->
     exists e, create_performance_trend_chart current_data baseline_data = Raise e).
Proof.
  split; [|apply trend_chart_not_numeric].
  intros c b c' b' Hsc Hsb Hc Hb. unfold create_performance_trend_chart.
  unfold get_performance_stats. rewrite Hsc, Hsb.
  rewrite (positive_allocs_ext _ _ Hc), (positive_allocs_ext _ _ Hb).
  by rewrite (score_ext _ _ Hc), (score_ext _ _ Hb).
Qed.

(** A report with names and the same report without them; and a report
    whose only allocs_per_op is a string. *)
Lemma trend_chart_reads_measurements_only_witness :
  create_performance_trend_chart
    (benchmarks_only [Bench (Some "A") (Some (PyNum 5)) (Some (PyInt 2))])
    (benchmarks_only [Bench (Some "A") (Some (PyInt 7)) None]) =
  create_performance_trend_chart
    (benchmarks_only [Bench None (Some (PyNum 5)) (Some (PyInt 2))])
    (benchmarks_only [Bench (Some "B") (Some (PyInt 7)) None]) /\
  exists e,
    create_performance_trend_chart
      (benchmarks_only [Bench (Some "A") (Some (PyNum 5)) (Some (PyStr "few"))])
      (benchmarks_only []) = Raise e.
Proof.
  split.
  - apply (proj1 trend_chart_reads_measurements_only); try reflexivity.
    + constructor; [by split | constructor].
    + constructor; [by split | constructor].
  - apply (proj2 trend_chart_reads_measurements_only).
    intros H. apply Forall_app in H as [H _]. apply Forall_cons in H as [[_ [q Hq]] _].
    discriminate Hq.
Defined.

(** X14.  In the trend chart the allocation histogram is drawn exactly
    when each of the two reports has a benchmark with a positive
    allocs_per_op, and the bar of the current score is green exactly when
    the current score is at least the baseline score: equal scores are
    green. *)
Theorem trend_histogram_and_color
    (current_data baseline_data : report_dict) (t : trend_chart) :
  create_performance_trend_chart current_data baseline_data = Ok t ->
  (is_Some (histogram t) <->
   (exists b q, b ∈ get_benchmarks (as_data current_data) /\
                as_number (get_allocs_per_op b) = Ok q /\ (0 < q)%Q) /\
   (exists b q, b ∈ get_benchmarks (as_data baseline_data) /\
                as_number (get_allocs_per_op b) = Ok q /\ (0 < q)%Q)) /\
  calculate_performance_score (as_data baseline_data) = Ok (fst (scores t)) /\
  calculate_performance_score (as_data current_data) = Ok (snd (scores t)) /\
  (current_color t = "lightgreen" <-> (fst (scores t) <= snd (scores t))%Q) /\
  (current_color t = "lightcoral" <-> (snd (scores t) < fst (scores t))%Q).
Proof.
  intros H.
  apply create_performance_trend_chart_Ok in H
    as (ca & ba & cs & bs & Hca & Hba & Hcs & Hbs & -> & -> & -> & _).
  apply positive_allocs_Ok in Hca as [_ Hca].
  apply positive_allocs_Ok in Hba as [_ Hba].
  split; [|split; [done|split; [done|]]].
  - rewrite <- Hca, <- Hba.
    destruct ca as [|a ca], ba as [|a' ba].
    + split; [intros [x Hx]; discriminate Hx | by intros [? _]].
    + split; [intros [x Hx]; discriminate Hx | by intros [? _]].
    + split; [intros [x Hx]; discriminate Hx | by intros [_ ?]].
    + split; [intros _; by split | intros _; by eexists].
  - simpl. unfold Qgeb. destruct (Qle_bool bs cs) eqn:E.
    + apply Qle_bool_iff in E. split; split; try done. intros H. lra.
    + assert (~ (bs <= cs)%Q) as Hn by (rewrite <- Qle_bool_iff; congruence).
      apply Qnot_le_lt in Hn. split; split; try done. intros H. lra.
Qed.

(** Equal scores and allocations on one side only. *)
Lemma trend_histogram_and_color_witness :
  exists t,
    create_performance_trend_chart
      (benchmarks_only [Bench (Some "A") (Some (PyNum 5)) (Some (PyNum 2))])
      (benchmarks_only [measured "A" 5]) = Ok t /\
    histogram t = None /\ current_color t = "lightgreen".
Proof.
  eexists. split; [vm_compute; reflexivity|]. split; [reflexivity|].
  apply (proj1 (proj2 (proj2 (proj2 (trend_histogram_and_color
           (benchmarks_only [Bench (Some "A") (Some (PyNum 5)) (Some (PyNum 2))])
           (benchmarks_only [measured "A" 5]) _ eq_refl))))).
  apply Qle_refl.
Defined.

Lemma filter_none {A} (P : A -> Prop) `{!forall x, Decision (P x)} (l : list A) :
  (forall x, ~ P x) -> filter P l = [].
Proof.
  intros Hno. induction l as [|x l IH]; [done|].
  rewrite filter_cons. by rewrite decide_False.
Qed.

Lemma panel_loop_spec (cm bm : gmap string pyval) (sts : list string) (acc : stat_panel) :
  exists cv bv,
    categories (panel_loop cm bm acc sts)
      = categories acc ++ (py_title <$> filter (shared_stat cm bm) sts) /\
    panel_current (panel_loop cm bm acc sts) = panel_current acc ++ cv /\
    panel_baseline (panel_loop cm bm acc sts) = panel_baseline acc ++ bv /\
    Forall2 (fun st v => cm !! st = Some v) (filter (shared_stat cm bm) sts) cv /\
    Forall2 (fun st v => bm !! st = Some v) (filter (shared_stat cm bm) sts) bv.
Proof.
  revert acc. induction sts as [|st sts IH]; intros acc.
  - exists [], []. simpl. rewrite !app_nil_r. by repeat split.
  - simpl. rewrite filter_cons.
    destruct (cm !! st) as [c|] eqn:Ec; [destruct (bm !! st) as [b|] eqn:Eb|].
    + rewrite decide_True by (split; by eexists).
      destruct (IH {| categories := categories acc ++ [py_title st];
                      panel_current := panel_current acc ++ [c];
                      panel_baseline := panel_baseline acc ++ [b] |})
        as (cv & bv & H1 & H2 & H3 & H4 & H5).
      exists (c :: cv), (b :: bv). rewrite H1, H2, H3. simpl.
      rewrite <- !app_assoc. simpl. repeat split; try done; by constructor.
    + rewrite decide_False by (intros [_ [? ?]]; congruence).
      apply IH.
    + rewrite decide_False by (intros [[? ?] _]; congruence).
      apply IH.
Qed.

(** X15.  A statistics panel of the trend chart shows, in the order Mean,
    Median, Min, Max, exactly the statistics that both reports provide for
    the metric, each with its two values; the panel is left out exactly
    when the reports share none of the four. *)
Theorem stat_panel_shows_shared_statistics
    (current_stats baseline_stats : gmap string (gmap string pyval))
    (metric_name : string) :
  let cm := default ∅ (current_stats !! metric_name) in
  let bm := default ∅ (baseline_stats !! metric_name) in
  let shared := filter (shared_stat cm bm) stats_types in
  match trend_panel current_stats baseline_stats metric_name with
  | Some p =>
      shared <> [] /\
      categories p = py_title <$> shared /\
      Forall2 (fun st v => cm !! st = Some v) shared (panel_current p) /\
      Forall2 (fun st v => bm !! st = Some v) shared (panel_baseline p)
  | None => shared = []
  end.
Proof.
  intros cm bm shared. unfold trend_panel. fold cm bm.
  destruct (size cm =? 0) eqn:Ec; cbn [orb].
  { apply Nat.eqb_eq, map_size_empty_iff in Ec. apply filter_none.
    intros st [[v Hv] _]. rewrite Ec, lookup_empty in Hv. done. }
  destruct (size bm =? 0) eqn:Eb.
  { apply Nat.eqb_eq, map_size_empty_iff in Eb. apply filter_none.
    intros st [_ [v Hv]]. rewrite Eb, lookup_empty in Hv. done. }
  cbv zeta.
  destruct (panel_loop_spec cm bm stats_types
              {| categories := []; panel_current := []; panel_baseline := [] |})
    as (cv & bv & H1 & H2 & H3 & H4 & H5).
  fold shared in H1, H4, H5.
  cbn [categories panel_current panel_baseline app] in H1, H2, H3.
  generalize dependent (panel_loop cm bm
    {| categories := []; panel_current := []; panel_baseline := [] |} stats_types).
  intros p H1 H2 H3. destruct (categories p) as [|t ts] eqn:E.
  - symmetry in H1. by apply fmap_nil_inv in H1.
  - rewrite E, H2, H3. split; [|done]. intros Hs. by rewrite Hs in H1.
Qed.

(** ** The script as a whole *)

Section MainFacts.

Variable float_of_str : string -> option Q.
Variable open_and_json_load_report : string -> res loaded_report.

Lemma py_not_falsy (v : loaded_report) : py_not v = true <-> falsy v.
Proof.
  split.
  - destruct v as [|r|k|t|q|b]; simpl; intros H.
    + constructor.
    + by constructor.
    + apply Nat.eqb_eq in H as ->. constructor.
    + apply String.eqb_eq in H as ->. constructor.
    + apply Qeq_bool_iff in H. by constructor.
    + apply negb_true_iff in H as ->. constructor.
  - destruct 1; simpl; try done. by apply Qeq_bool_iff.
Qed.

Lemma py_not_load_report (filename : string) :
  py_not (load_report open_and_json_load_report filename) = true <->
  unusable open_and_json_load_report filename.
Proof.
  unfold load_report, unusable.
  destruct (open_and_json_load_report filename) as [v|e].
  - rewrite py_not_falsy. split.
    + intros H. right. by exists v.
    + intros [[e H] | (v' & [= <-] & H)]; done.
  - split; [intros _; left; by exists e | done].
Qed.


End MainFacts.

